(** * hostel-chow-hub: the weekly menu resolver and the session/profile binder

    A shallow embedding of [src/pages/FoodMenu.tsx] (the [menusByDay]
    computation) and of [src/contexts/AuthContext.tsx] ([login],
    [updateProfile], [toggleTheme]), followed by the properties the
    specification states about them.

    JavaScript objects used as dictionaries are finite maps ([gmap] with
    string keys), arrays are lists, the React state, the DOM class list, the
    toasts and the remote calls of the auth context are fields of one
    explicit world record threaded through a state-and-exception monad. *)

From Stdlib Require Import ZArith String Ascii List Bool Lia.
From stdpp Require Import gmap strings list fin_maps sorting.

Local Open Scope string_scope.
Local Open Scope list_scope.
Local Open Scope Z_scope.

(** ** The JavaScript runtime the two files rely on *)

Module JS.

(** Truthiness of a string value: only the empty string is falsy. *)
Definition truthy (s : string) : bool := negb (String.eqb s "").

(** [Array.prototype.join] on an array of strings, as the language
    definition runs it: the accumulator [R] starts empty, and from the
    second element on the separator is appended before the element. *)
Fixpoint join_from (sep R : string) (k : nat) (xs : list string) : string :=
  match xs with
  | [] => R
  | x :: xs' =>
      let R := match k with O => R | S _ => R +:+ sep end in
      join_from sep (R +:+ x) (S k) xs'
  end.

Definition join (sep : string) (xs : list string) : string :=
  join_from sep "" 0 xs.

(** [s.split('T')[0]]: the part of [s] before the first letter T (all of
    [s] when there is none). *)
Fixpoint split_T_0 (s : string) : string :=
  match s with
  | EmptyString => EmptyString
  | String c s' => if Ascii.eqb c "T"%char then EmptyString
                   else String c (split_T_0 s')
  end.

(** A time value is an integral number of milliseconds since the epoch;
    [None] stands for NaN, the time value of an invalid date. *)
Definition TimeValue := option Z.

Definition msPerDay : Z := 86400000.

(** [Day(t)] and [WeekDay(t)] of the language definition (0 is Sunday). *)
Definition Day (t : Z) : Z := t / msPerDay.
Definition WeekDay (t : Z) : Z := (Day t + 4) mod 7.

(** The host's [Date] object: what [new Date(s)] parses a string to, the
    clock read by [new Date()], the text [toISOString] prints, and the
    offset of local time from UTC at a time value. *)
Class DateHost := {
  Date_parse : string -> TimeValue;
  Date_now : Z;
  Date_toISOString : Z -> string;
  LocalTZA : Z -> Z
}.

(** [a >= b] on two [Date] objects compares their time values; a
    comparison with NaN is false. *)
Definition date_ge (a b : TimeValue) : bool :=
  match a, b with
  | Some x, Some y => y <=? x
  | _, _ => false
  end.

(** [a - b] on two time values; NaN when either is. *)
Definition time_sub (a b : TimeValue) : TimeValue :=
  match a, b with
  | Some x, Some y => Some (x - y)
  | _, _ => None
  end.

(** [Date.prototype.getDay]: the weekday of the local time, NaN for an
    invalid date. *)
Definition getDay `{DateHost} (d : TimeValue) : option Z :=
  match d with
  | Some t => Some (WeekDay (t + LocalTZA t))
  | None => None
  end.

(** [Array.prototype.sort] with a comparison function: a comparator
    result of NaN counts as +0, and the sort is stable.  Every element is
    inserted, from the right, before the first element it does not
    exceed. *)
Section Sort.
Context {A : Type} (comparefn : A -> A -> option Z).

Definition sort_le (x y : A) : bool :=
  match comparefn x y with
  | Some v => v <=? 0
  | None => true
  end.

Fixpoint sort_insert (x : A) (l : list A) : list A :=
  match l with
  | [] => [x]
  | y :: l' => if sort_le x y then x :: y :: l' else y :: sort_insert x l'
  end.

Definition sort (l : list A) : list A := foldr sort_insert [] l.
End Sort.

End JS.

(** A host for [Date] restricted to the date-only form [YYYY-MM-DD] of the
    date-time string format (what a [date] column holds and what
    [getTodayDateString] yields), read as midnight UTC.  It serves to run
    the model on concrete records. *)
Module IsoDate.

Definition digit (c : ascii) : option Z :=
  let n := Z.of_nat (nat_of_ascii c) in
  if (48 <=? n) && (n <=? 57) then Some (n - 48) else None.

Fixpoint digits (acc : Z) (s : list ascii) : option Z :=
  match s with
  | [] => Some acc
  | c :: s' => match digit c with
               | Some d => digits (10 * acc + d) s'
               | None => None
               end
  end.

(** Days from the epoch to the civil date [y]-[m]-[d]. *)
Definition days_from_civil (y m d : Z) : Z :=
  let y' := if m <=? 2 then y - 1 else y in
  let era := y' / 400 in
  let yoe := y' - era * 400 in
  let doy := (153 * (if 2 <? m then m - 3 else m + 9) + 2) / 5 + d - 1 in
  let doe := yoe * 365 + yoe / 4 - yoe / 100 + doy in
  era * 146097 + doe - 719468.

(** The civil date of a day number. *)
Definition civil_from_days (z : Z) : Z * Z * Z :=
  let z := z + 719468 in
  let era := z / 146097 in
  let doe := z - era * 146097 in
  let yoe := (doe - doe / 1460 + doe / 36524 - doe / 146096) / 365 in
  let doy := doe - (365 * yoe + yoe / 4 - yoe / 100) in
  let mp := (5 * doy + 2) / 153 in
  let d := doy - (153 * mp + 2) / 5 + 1 in
  let m := if mp <? 10 then mp + 3 else mp - 9 in
  let y := yoe + era * 400 in
  (if m <=? 2 then y + 1 else y, m, d).

Definition parse (s : string) : JS.TimeValue :=
  match list_ascii_of_string s with
  | [y1; y2; y3; y4; "-"%char; m1; m2; "-"%char; d1; d2] =>
      match digits 0 [y1; y2; y3; y4], digits 0 [m1; m2], digits 0 [d1; d2] with
      | Some y, Some m, Some d =>
          if (1 <=? m) && (m <=? 12) && (1 <=? d) && (d <=? 31)
          then Some (days_from_civil y m d * JS.msPerDay)
          else None
      | _, _, _ => None
      end
  | _ => None
  end.

Definition digit_char (n : Z) : ascii := ascii_of_nat (Z.to_nat (48 + n mod 10)).

(** [n] printed with [w] decimal digits. *)
Fixpoint pad (w : nat) (n : Z) : string :=
  match w with
  | O => EmptyString
  | S w' => pad w' (n / 10) +:+ String (digit_char n) EmptyString
  end.

(** [YYYY-MM-DDTHH:mm:ss.sssZ] for the years 0 to 9999. *)
Definition toISOString (t : Z) : string :=
  let '(y, m, d) := civil_from_days (JS.Day t) in
  let ms := t mod JS.msPerDay in
  pad 4 y +:+ "-" +:+ pad 2 m +:+ "-" +:+ pad 2 d +:+ "T" +:+
  pad 2 (ms / 3600000) +:+ ":" +:+ pad 2 (ms / 60000 mod 60) +:+ ":" +:+
  pad 2 (ms / 1000 mod 60) +:+ "." +:+ pad 3 (ms mod 1000) +:+ "Z".

(** A host whose clock reads [now] and whose local time is [tz]
    milliseconds ahead of UTC. *)
Definition host (now tz : Z) : JS.DateHost :=
  {| JS.Date_parse := parse;
     JS.Date_now := now;
     JS.Date_toISOString := toISOString;
     JS.LocalTZA := fun _ => tz |}.

End IsoDate.

(** ** src/pages/FoodMenu.tsx *)

Module FoodMenu.
Import JS.

(** The [items] payload of a record, by the cases the callback tells
    apart: a falsy value ([null], a missing column), a flat array of
    strings, an object keyed by meal type, or some other truthy value
    that is neither (a number or a string in the column).  As the
    [ScheduledMenu] type declares, what an object holds under a key of its
    own is an array of strings; the object is a plain one, so a key it
    does not hold is looked up in [Object.prototype]. *)
Inductive Items :=
| ItemsFalsy
| ItemsArray (xs : list string)
| ItemsObject (m : gmap string (list string))
| ItemsScalar.

Record ScheduledMenu := {
  id : string;
  date : string;
  meal_type : string;
  items : Items;
  published : bool
}.

Definition days : list string :=
  ["sunday"; "monday"; "tuesday"; "wednesday"; "thursday"; "friday"; "saturday"].

(** A day's menu maps a slot name to its text; the weekly menu maps a day
    name to a day's menu. *)
Definition fallbackWeeklyMenu : gmap string (gmap string string) :=
  list_to_map [
    ("monday", list_to_map [
       ("breakfast", "Idli, Vada, Sambar, Coconut Chutney, Coffee/Tea");
       ("lunch", "Rice, Dal, Aloo Gobi, Chapati, Curd, Pickle");
       ("snacks", "Biscuits, Coffee/Tea");
       ("dinner", "Chapati, Paneer Butter Masala, Jeera Rice, Salad")]);
    ("tuesday", list_to_map [
       ("breakfast", "Poha, Boiled Eggs, Bread, Jam, Coffee/Tea");
       ("lunch", "Rice, Rajma, Mixed Vegetable, Chapati, Raita");
       ("snacks", "Samosa, Coffee/Tea");
       ("dinner", "Chapati, Chicken Curry, Rice, Salad, Ice Cream")]);
    ("wednesday", list_to_map [
       ("breakfast", "Dosa, Coconut Chutney, Upma, Coffee/Tea");
       ("lunch", "Rice, Dal Makhani, Bhindi Fry, Chapati, Curd");
       ("snacks", "Vada Pav, Coffee/Tea");
       ("dinner", "Chapati, Egg Curry, Veg Pulao, Raita")]);
    ("thursday", list_to_map [
       ("breakfast", "Paratha, Curd, Fruits, Coffee/Tea");
       ("lunch", "Rice, Kadhi, Aloo Matar, Chapati, Pickle");
       ("snacks", "Kachori, Coffee/Tea");
       ("dinner", "Chapati, Dal Tadka, Veg Biryani, Salad")]);
    ("friday", list_to_map [
       ("breakfast", "Bread Omelette, Cornflakes, Milk, Coffee/Tea");
       ("lunch", "Rice, Chole, Aloo Jeera, Chapati, Raita");
       ("snacks", "Pav Bhaji, Coffee/Tea");
       ("dinner", "Chapati, Mix Veg Curry, Fried Rice, Gulab Jamun")]);
    ("saturday", list_to_map [
       ("breakfast", "Puri, Bhaji, Sprouts, Coffee/Tea");
       ("lunch", "Rice, Dal Fry, Gobi Matar, Chapati, Curd");
       ("snacks", "Bread Pakora, Coffee/Tea");
       ("dinner", "Chapati, Fish Curry, Jeera Rice, Salad")]);
    ("sunday", list_to_map [
       ("breakfast", "Chole Bhature, Fruits, Coffee/Tea");
       ("lunch", "Rice, Sambar, Rasam, Chapati, Papad, Sweet");
       ("snacks", "French Fries, Coffee/Tea");
       ("dinner", "Chapati, Mutton/Paneer Curry, Pulao, Raita, Ice Cream")])
  ].

(** Reading [o[k]] and spreading the result: a missing entry spreads to
    the empty object. *)
Definition spread (o : gmap string (gmap string string)) (k : string)
  : gmap string string :=
  default ∅ (o !! k).

(** The first loop of [menusByDay]: every day starts as a copy of its
    fallback entry. *)
Definition initGrouped : gmap string (gmap string string) :=
  foldl (fun grouped day => <[day := spread fallbackWeeklyMenu day]> grouped)
        ∅ days.

Section Resolver.
Context `{DateHost}.

Definition getTodayDateString : string :=
  split_T_0 (Date_toISOString Date_now).

(** The predicate of the [filter] call: [menuDate >= todayDate]. *)
Definition onOrAfterToday (menu : ScheduledMenu) : bool :=
  date_ge (Date_parse (date menu)) (Date_parse getTodayDateString).

Definition relevantMenus (scheduledMenus : list ScheduledMenu)
  : list ScheduledMenu :=
  List.filter onOrAfterToday scheduledMenus.

(** The comparison function of the [sort] call. *)
Definition byDate (a b : ScheduledMenu) : option Z :=
  time_sub (Date_parse (date a)) (Date_parse (date b)).

(** [days[menuDate.getDay()]], as a property key: indexing with NaN or
    out of range gives [undefined], printed "undefined" as a key. *)
Definition dayName (menu : ScheduledMenu) : string :=
  match getDay (Date_parse (date menu)) with
  | Some dayIndex =>
      if 0 <=? dayIndex then default "undefined" (days !! Z.to_nat dayIndex)
      else "undefined"
  | None => "undefined"
  end.

(** The names every plain object inherits from [Object.prototype]; all of
    them are truthy (functions, and the prototype itself for [__proto__])
    and none has a [join]. *)
Definition Object_prototype : list string :=
  ["constructor"; "__defineGetter__"; "__defineSetter__"; "hasOwnProperty";
   "__lookupGetter__"; "__lookupSetter__"; "isPrototypeOf";
   "propertyIsEnumerable"; "toString"; "valueOf"; "__proto__";
   "toLocaleString"].

(** What [o[k]] reads on a plain object: an entry of its own, else a member
    inherited from [Object.prototype], else [undefined]. *)
Inductive Member :=
| Own (entries : list string)
| Inherited
| Missing.

Definition member (o : gmap string (list string)) (k : string) : Member :=
  match o !! k with
  | Some entries => Own entries
  | None => if existsb (String.eqb k) Object_prototype then Inherited
            else Missing
  end.

(** The conditional expression that computes [itemsString], for a
    truthy [menu.items]; [None] when it throws a TypeError: an inherited
    member is truthy, passes the [?.] and has no [join] to call. *)
Definition itemsString (menu : ScheduledMenu) : option string :=
  match items menu with
  | ItemsArray xs => Some (join ", " xs)
  | ItemsObject o =>
      match member o (meal_type menu) with
      | Own entries => Some (join ", " entries)
      | Inherited => None
      | Missing => Some ""
      end
  | ItemsScalar => Some ""
  | ItemsFalsy => Some ""
  end.

Definition items_truthy (i : Items) : bool :=
  match i with ItemsFalsy => false | _ => true end.

(** The body of the [forEach] callback; [None] when it throws. *)
Definition applyMenu (grouped : gmap string (gmap string string))
           (menu : ScheduledMenu) : option (gmap string (gmap string string)) :=
  let dayName := dayName menu in
  if items_truthy (items menu) && truthy (meal_type menu) then
    match itemsString menu with
    | Some itemsString =>
        if truthy itemsString then
          Some (<[dayName :=
                    <[meal_type menu := itemsString]> (spread grouped dayName)]>
                  grouped)
        else Some grouped
    | None => None
    end
  else Some grouped.

(** [relevantMenus.forEach(...)]: the callback on each record in turn; a
    throw ends the loop and is the outcome. *)
Fixpoint forEach (grouped : gmap string (gmap string string))
         (menus : list ScheduledMenu)
  : option (gmap string (gmap string string)) :=
  match menus with
  | [] => Some grouped
  | menu :: rest =>
      match applyMenu grouped menu with
      | Some grouped' => forEach grouped' rest
      | None => None
      end
  end.

(** The records the [forEach] runs over, in its order. *)
Definition sortedRelevantMenus (scheduledMenus : list ScheduledMenu)
  : list ScheduledMenu :=
  sort byDate (relevantMenus scheduledMenus).

(** The memoised computation; [None] when it throws (the component then
    renders nothing). *)
Definition menusByDay (scheduledMenus : list ScheduledMenu)
  : option (gmap string (gmap string string)) :=
  let grouped := initGrouped in
  if (0 <? length scheduledMenus)%nat then
    forEach grouped (sortedRelevantMenus scheduledMenus)
  else Some grouped.

(** The first guard of the callback. *)
Definition guard (menu : ScheduledMenu) : bool :=
  items_truthy (items menu) && truthy (meal_type menu).

(** The record gets as far as the assignment to [grouped[dayName]]. *)
Definition writes (menu : ScheduledMenu) : bool :=
  guard menu && match itemsString menu with
                | Some s => truthy s
                | None => false
                end.

(** The callback throws on the record. *)
Definition throws (menu : ScheduledMenu) : bool :=
  guard menu && match itemsString menu with
                | Some _ => false
                | None => true
                end.

(** The records that assign to the slot [meal] of [day]. *)
Definition writesSlot (day meal : string) (menu : ScheduledMenu) : Prop :=
  writes menu = true /\ dayName menu = day /\ meal_type menu = meal.

(** [new Date(menu.date).getTime()]. *)
Definition getTime (menu : ScheduledMenu) : TimeValue :=
  Date_parse (date menu).

(** Date order on records with a valid date. *)
Definition chron_le (a b : ScheduledMenu) : Prop :=
  exists x y, getTime a = Some x /\ getTime b = Some y /\ x <= y.

(** The specification's words, to hold the code against: today's calendar
    date is the day the clock shows in local time (as a day number), the
    date of a record is the calendar date written in it (its date-only
    string denotes the UTC midnight of that date), and the weekday of a
    record is the weekday of that date. *)
Definition claimed_today : Z := Day (Date_now + LocalTZA Date_now).

Definition claimed_date (menu : ScheduledMenu) : option Z :=
  Day <$> getTime menu.

Definition claimed_dayName (menu : ScheduledMenu) : option string :=
  t ← getTime menu; days !! Z.to_nat (WeekDay t).

End Resolver.

(** [grouped[day]?.[meal]]: the text of a slot of a day, if the day and
    the slot are there. *)
Definition slot (grouped : gmap string (gmap string string))
           (day meal : string) : option string :=
  grouped !! day ≫= (.!! meal).

Definition meals : list string := ["breakfast"; "lunch"; "snacks"; "dinner"].

(** Every slot of the seven days holds a text that is not empty. *)
Definition covered (g : gmap string (gmap string string)) : Prop :=
  forall day meal, day ∈ days -> meal ∈ meals ->
                   exists s, slot g day meal = Some s /\ s <> "".

End FoodMenu.

(** ** src/contexts/AuthContext.tsx *)

Module AuthContext.
Import JS.

(** The [theme] is declared as one of the literals light and dark; the
    value read back from the profile table is only cast to that type, so
    it is a string here, as it is at run time. *)
Record User := {
  id : string;
  name : string;
  email : string;
  roomNumber : string;
  regNumber : string;
  phoneNumber : option string;
  avatar : option string;
  theme : option string;
  isAdmin : option bool
}.

(** [Partial<User>]: every key may be absent ([None]); an optional field
    may also be present and [undefined] ([Some None]). *)
Module Partial.
Record User := {
  id : option string;
  name : option string;
  email : option string;
  roomNumber : option string;
  regNumber : option string;
  phoneNumber : option (option string);
  avatar : option (option string);
  theme : option (option string);
  isAdmin : option (option bool)
}.
End Partial.

(** The error value of a failed remote call. *)
Record Error := { message : string }.

Record Toast := {
  title : string;
  description : string;
  variant : option string
}.

(** The calls made to the backend client. *)
Inductive RemoteCall :=
| SignInWithPassword (email password : string)
| ProfilesUpdate (profileUpdates : gmap string string) (id : string).

(** What an awaited call comes back with: the promise resolves to a
    result whose [error] field is set or not, or it rejects. *)
Inductive Response :=
| Resolved (error : option Error)
| Rejected (reason : Error).

(** Everything the provider's callbacks read or write. *)
Record World := {
  user : option User;               (* React state [user] *)
  isLoading : bool;                 (* React state [isLoading] *)
  dark : bool;                      (* the root element has class dark *)
  toasts : list Toast;              (* notifications shown, oldest first *)
  console : list (string * string); (* console.error lines *)
  remote : list RemoteCall          (* calls issued, oldest first *)
}.

(** How a callback ends: it returns or it throws. *)
Inductive Completion (A : Type) :=
| Normal (a : A)
| Throw (e : Error).
Arguments Normal {A} a.
Arguments Throw {A} e.

Definition M (A : Type) : Type := World -> World * Completion A.

#[global] Instance M_ret : MRet M := fun A a w => (w, Normal a).
#[global] Instance M_bind : MBind M := fun A B f m w =>
  match m w with
  | (w', Normal a) => f a w'
  | (w', Throw e) => (w', Throw e)
  end.

Definition throw {A} (e : Error) : M A := fun w => (w, Throw e).

(** [try { m } catch (error) { handler error }]. *)
Definition try_catch {A} (m : M A) (handler : Error -> M A) : M A := fun w =>
  match m w with
  | (w', Normal a) => (w', Normal a)
  | (w', Throw e) => handler e w'
  end.

(** [try { m } finally { fin }]: [fin] always runs; the completion is that
    of [m] unless [fin] itself throws. *)
Definition try_finally {A} (m : M A) (fin : M unit) : M A := fun w =>
  match m w with
  | (w', c) =>
      match fin w' with
      | (w'', Normal _) => (w'', c)
      | (w'', Throw e) => (w'', Throw e)
      end
  end.

(** Reading [user] in a callback: the state of the render the callback
    was made in, which the provider renews whenever [user] changes. *)
Definition get_user : M (option User) := fun w => (w, Normal (user w)).

(** [setUser(prev => f prev)]. *)
Definition setUser (f : option User -> option User) : M unit := fun w =>
  ({| user := f (user w); isLoading := isLoading w; dark := dark w;
      toasts := toasts w; console := console w; remote := remote w |},
   Normal ()).

Definition setIsLoading (b : bool) : M unit := fun w =>
  ({| user := user w; isLoading := b; dark := dark w;
      toasts := toasts w; console := console w; remote := remote w |},
   Normal ()).

(** [document.documentElement.classList.add('dark')] and [.remove]. *)
Definition classList_set_dark (b : bool) : M unit := fun w =>
  ({| user := user w; isLoading := isLoading w; dark := b;
      toasts := toasts w; console := console w; remote := remote w |},
   Normal ()).

Definition toast (t : Toast) : M unit := fun w =>
  ({| user := user w; isLoading := isLoading w; dark := dark w;
      toasts := toasts w ++ [t]; console := console w; remote := remote w |},
   Normal ()).

Definition console_error (label msg : string) : M unit := fun w =>
  ({| user := user w; isLoading := isLoading w; dark := dark w;
      toasts := toasts w; console := console w ++ [(label, msg)];
      remote := remote w |},
   Normal ()).

(** [await call]: the call is issued, then the promise settles as [resp]
    says; a rejection is thrown at the await. *)
Definition await (call : RemoteCall) (resp : Response) : M (option Error) :=
  fun w =>
  let w' := {| user := user w; isLoading := isLoading w; dark := dark w;
               toasts := toasts w; console := console w;
               remote := remote w ++ [call] |} in
  match resp with
  | Resolved error => (w', Normal error)
  | Rejected reason => (w', Throw reason)
  end.

(** [if (error) throw error]. *)
Definition throw_if (error : option Error) : M unit :=
  match error with
  | Some e => throw e
  | None => mret ()
  end.

(** The error of a failed call: the [error] of a resolved result, or the
    reason of a rejection. *)
Definition failure (resp : Response) : option Error :=
  match resp with
  | Resolved error => error
  | Rejected reason => Some reason
  end.

Definition login (email password : string) (resp : Response) : M unit :=
  setIsLoading true;;
  try_finally
    (try_catch
       (error ← await (SignInWithPassword email password) resp;
        throw_if error;;
        toast {| title := "Login successful";
                 description :=
                   "Welcome back to the Hostel Mess Management System";
                 variant := None |})
       (fun error =>
          console_error "Login failed:" (message error);;
          toast {| title := "Login failed";
                   description := message error;
                   variant := Some "destructive" |};;
          throw error))
    (setIsLoading false).

(** [if (v) profileUpdates[k] = v]. *)
Definition assign_if_truthy (k : string) (v : option string)
           (profileUpdates : gmap string string) : gmap string string :=
  match v with
  | Some s => if truthy s then <[k := s]> profileUpdates else profileUpdates
  | None => profileUpdates
  end.

(** The four assignments that build [profileUpdates]. *)
Definition profileUpdatesOf (updates : Partial.User) : gmap string string :=
  let profileUpdates := ∅ in
  let profileUpdates :=
    assign_if_truthy "name" (Partial.name updates) profileUpdates in
  let profileUpdates :=
    assign_if_truthy "phone_number" (mjoin (Partial.phoneNumber updates))
                     profileUpdates in
  let profileUpdates :=
    assign_if_truthy "avatar" (mjoin (Partial.avatar updates)) profileUpdates in
  match mjoin (Partial.theme updates) with
  | Some t =>
      if truthy t && (String.eqb t "light" || String.eqb t "dark")
      then <["theme" := t]> profileUpdates
      else profileUpdates
  | None => profileUpdates
  end.

(** The column names of the remote record that [updateProfile] can set. *)
Definition mapped_columns : list string :=
  ["name"; "phone_number"; "avatar"; "theme"].

(** [{ ...prev, ...updates }]: a key present in [updates] wins. *)
Definition merge (prev : User) (updates : Partial.User) : User :=
  {| id := default (id prev) (Partial.id updates);
     name := default (name prev) (Partial.name updates);
     email := default (email prev) (Partial.email updates);
     roomNumber := default (roomNumber prev) (Partial.roomNumber updates);
     regNumber := default (regNumber prev) (Partial.regNumber updates);
     phoneNumber := default (phoneNumber prev) (Partial.phoneNumber updates);
     avatar := default (avatar prev) (Partial.avatar updates);
     theme := default (theme prev) (Partial.theme updates);
     isAdmin := default (isAdmin prev) (Partial.isAdmin updates) |}.

Definition updateProfile (updates : Partial.User) (resp : Response) : M unit :=
  user ← get_user;
  match user with
  | None => mret ()
  | Some user =>
      try_catch
        (let profileUpdates := profileUpdatesOf updates in
         error ← await (ProfilesUpdate profileUpdates (id user)) resp;
         throw_if error;;
         setUser (fun prev =>
                    match prev with
                    | None => None
                    | Some prev => Some (merge prev updates)
                    end);;
         match mjoin (Partial.theme updates) with
         | Some t =>
             if truthy t then classList_set_dark (String.eqb t "dark")
             else mret ()
         | None => mret ()
         end;;
         toast {| title := "Profile updated";
                  description := "Your profile has been updated successfully";
                  variant := None |})
        (fun error =>
           console_error "Profile update failed:" (message error);;
           toast {| title := "Profile update failed";
                    description := message error;
                    variant := Some "destructive" |})
  end.

(** [user.theme === 'light' ? 'dark' : 'light']. *)
Definition newThemeOf (user : User) : string :=
  match theme user with
  | Some t => if String.eqb t "light" then "dark" else "light"
  | None => "light"
  end.

(** [{ ...prev, theme: newTheme }]. *)
Definition with_theme (prev : User) (newTheme : string) : User :=
  {| id := id prev; name := name prev; email := email prev;
     roomNumber := roomNumber prev; regNumber := regNumber prev;
     phoneNumber := phoneNumber prev; avatar := avatar prev;
     theme := Some newTheme; isAdmin := isAdmin prev |}.

Definition toggleTheme (resp : Response) : M unit :=
  user ← get_user;
  match user with
  | None => mret ()
  | Some user =>
      let newTheme := newThemeOf user in
      try_catch
        (error ← await (ProfilesUpdate {["theme" := newTheme]} (id user)) resp;
         throw_if error;;
         setUser (fun prev =>
                    match prev with
                    | None => None
                    | Some prev => Some (with_theme prev newTheme)
                    end);;
         classList_set_dark (String.eqb newTheme "dark"))
        (fun error =>
           console_error "Theme toggle failed:" (message error);;
           toast {| title := "Theme toggle failed";
                    description := message error;
                    variant := Some "destructive" |})
  end.

End AuthContext.

(** ** The rest of src/pages/FoodMenu.tsx: the current day and the query *)

Module FoodMenuPage.
Import JS FoodMenu.

Section Page.
Context `{DateHost}.

(** [getCurrentDay]: [days[new Date().getDay()]], the tab opened first;
    [None] stands for [undefined]. *)
Definition getCurrentDay : option string :=
  match getDay (Some Date_now) with
  | Some currentDayIndex =>
      if 0 <=? currentDayIndex then days !! Z.to_nat currentDayIndex
      else None
  | None => None
  end.

End Page.

(** What the awaited select comes back with: a result with its [data] and
    [error] fields, or a rejection. *)
Inductive Fetch :=
| FetchResolved (data : list ScheduledMenu) (error : option string)
| FetchRejected.

(** [queryFn]: an error in the result turns into the empty list; a
    rejection is not caught ([None]: the query has no data). *)
Definition queryFn (r : Fetch) : option (list ScheduledMenu) :=
  match r with
  | FetchResolved data error =>
      match error with
      | Some _ => Some []
      | None => Some data
      end
  | FetchRejected => None
  end.

(** [const { data: scheduledMenus = [] } = useQuery(...)]: without data
    (still loading, or the query failed) the list is empty. *)
Definition scheduledMenus (data : option (list ScheduledMenu))
  : list ScheduledMenu :=
  default [] data.

End FoodMenuPage.

(** ** The rest of src/contexts/AuthContext.tsx: hydration, register, logout *)

Module AuthProvider.
Import JS AuthContext.

Definition ADMIN_EMAILS : list string := ["hellofrom1000@gmail.com"].

(** [s.startsWith(search)]. *)
Fixpoint starts_with (search s : string) : bool :=
  match search, s with
  | EmptyString, _ => true
  | String a search', String b s' => Ascii.eqb a b && starts_with search' s'
  | String _ _, EmptyString => false
  end.

(** [s.includes(search)]: [search] starts at some position of [s]. *)
Fixpoint includes (s search : string) : bool :=
  starts_with search s
  || match s with
     | EmptyString => false
     | String _ s' => includes s' search
     end.

(** [ADMIN_EMAILS.includes(email) || email.includes('admin')]. *)
Definition isAdminEmail (email : string) : bool :=
  existsb (String.eqb email) ADMIN_EMAILS || includes email "admin".

(** The values the backend client hands over. *)
Module Supabase.
Record User := {
  id : string;
  email : option string
}.

Record Session := {
  user : option User
}.

(** A row of the profiles table. *)
Record Profile := {
  name : string;
  room_number : string;
  reg_number : string;
  phone_number : option string;
  avatar : option string;
  theme : option string
}.
End Supabase.

(** The [data] option of the sign-up call. *)
Module SignUp.
Record Data := {
  name : string;
  roomNumber : string;
  regNumber : string;
  phoneNumber : option string;
  isAdmin : bool
}.
End SignUp.

(** The calls to the backend client made outside the three callbacks
    above. *)
Inductive AuthCall :=
| SignUp (email password : string) (data : SignUp.Data)
| SignOut
| GetSession
| ProfilesSelect (id : string).

(** The provider's world together with the log of those calls. *)
Record Provider := {
  world : World;
  calls : list AuthCall
}.

Definition P (A : Type) : Type := Provider -> Provider * Completion A.

#[global] Instance P_ret : MRet P := fun A a p => (p, Normal a).
#[global] Instance P_bind : MBind P := fun A B f m p =>
  match m p with
  | (p', Normal a) => f a p'
  | (p', Throw e) => (p', Throw e)
  end.

(** A step on the world alone. *)
Definition lift {A} (m : M A) : P A := fun p =>
  match m (world p) with
  | (w', c) => ({| world := w'; calls := calls p |}, c)
  end.

Definition tryCatch {A} (m : P A) (handler : Error -> P A) : P A := fun p =>
  match m p with
  | (p', Normal a) => (p', Normal a)
  | (p', Throw e) => handler e p'
  end.

Definition tryFinally {A} (m : P A) (fin : P unit) : P A := fun p =>
  match m p with
  | (p', c) =>
      match fin p' with
      | (p'', Normal _) => (p'', c)
      | (p'', Throw e) => (p'', Throw e)
      end
  end.

Definition issue (call : AuthCall) (p : Provider) : Provider :=
  {| world := world p; calls := calls p ++ [call] |}.

(** [await] of a call that settles like those of the callbacks above. *)
Definition awaitAuth (call : AuthCall) (resp : Response) : P (option Error) :=
  fun p =>
  match resp with
  | Resolved error => (issue call p, Normal error)
  | Rejected reason => (issue call p, Throw reason)
  end.

(** What the select of one profile row comes back with. *)
Inductive ProfileResponse :=
| ProfileResolved (data : option Supabase.Profile) (error : option Error)
| ProfileRejected (reason : Error).

Definition awaitProfile (call : AuthCall) (resp : ProfileResponse)
  : P (option Supabase.Profile * option Error) :=
  fun p =>
  match resp with
  | ProfileResolved data error => (issue call p, Normal (data, error))
  | ProfileRejected reason => (issue call p, Throw reason)
  end.

(** What [getSession] comes back with. *)
Inductive SessionResponse :=
| SessionResolved (session : option Supabase.Session)
| SessionRejected (reason : Error).

Definition awaitSession (resp : SessionResponse)
  : P (option Supabase.Session) :=
  fun p =>
  match resp with
  | SessionResolved session => (issue GetSession p, Normal session)
  | SessionRejected reason => (issue GetSession p, Throw reason)
  end.

(** [v || d] on an optional string. *)
Definition or_else (v : option string) (d : string) : string :=
  match v with
  | Some s => if truthy s then s else d
  | None => d
  end.

(** [o === s] on an optional string. *)
Definition strict_eq (o : option string) (s : string) : bool :=
  match o with
  | Some t => String.eqb t s
  | None => false
  end.

Definition formatUser (supabaseUser : option Supabase.User)
           (resp : ProfileResponse) : P (option User) :=
  match supabaseUser with
  | None => mret None
  | Some supabaseUser =>
      tryCatch
        (r ← awaitProfile (ProfilesSelect (Supabase.id supabaseUser)) resp;
         match r with
         | (_, Some profileError) =>
             lift (console_error "Error fetching user profile:"
                                 (message profileError));;
             mret None
         | (None, None) =>
             lift (console_error "No profile data found for user:"
                                 (Supabase.id supabaseUser));;
             mret None
         | (Some profileData, None) =>
             lift (classList_set_dark
                     (strict_eq (Supabase.theme profileData) "dark"));;
             let isAdmin :=
               match Supabase.email supabaseUser with
               | Some email => Some (isAdminEmail email)
               | None => None
               end in
             mret (Some
                     {| id := Supabase.id supabaseUser;
                        email := or_else (Supabase.email supabaseUser) "";
                        name := Supabase.name profileData;
                        roomNumber := Supabase.room_number profileData;
                        regNumber := Supabase.reg_number profileData;
                        phoneNumber := Supabase.phone_number profileData;
                        avatar := Supabase.avatar profileData;
                        theme := Some (or_else (Supabase.theme profileData)
                                               "light");
                        isAdmin := isAdmin |})
         end)
        (fun error =>
           lift (console_error "Error formatting user:" (message error));;
           mret None)
  end.

(** [session?.user]. *)
Definition session_user (session : option Supabase.Session)
  : option Supabase.User :=
  session ≫= Supabase.user.

(** The callback of [onAuthStateChange]. *)
Definition handleAuthChange (session : option Supabase.Session)
           (resp : ProfileResponse) : P unit :=
  tryFinally
    (match session_user session with
     | Some u =>
         formattedUser ← formatUser (Some u) resp;
         lift (setUser (fun _ => formattedUser))
     | None => lift (setUser (fun _ => None))
     end)
    (lift (setIsLoading false)).

Definition initializeAuth (sresp : SessionResponse) (resp : ProfileResponse)
  : P unit :=
  tryFinally
    (tryCatch
       (session ← awaitSession sresp;
        match session_user session with
        | Some u =>
            formattedUser ← formatUser (Some u) resp;
            lift (setUser (fun _ => formattedUser))
        | None => mret ()
        end)
       (fun error =>
          lift (console_error "Error initializing auth:" (message error))))
    (lift (setIsLoading false)).

Definition register (name email password roomNumber regNumber : string)
           (phoneNumber : option string) (resp : Response) : P unit :=
  lift (setIsLoading true);;
  tryFinally
    (tryCatch
       (let isAdmin := isAdminEmail email in
        error ← awaitAuth
                  (SignUp email password
                     {| SignUp.name := name;
                        SignUp.roomNumber := roomNumber;
                        SignUp.regNumber := regNumber;
                        SignUp.phoneNumber := phoneNumber;
                        SignUp.isAdmin := isAdmin |})
                  resp;
        lift (throw_if error);;
        lift (toast
                {| title := "Registration successful";
                   description :=
                     if isAdmin
                     then "Welcome to the Hostel Mess Management System with admin privileges"
                     else "Welcome to the Hostel Mess Management System";
                   variant := None |}))
       (fun error =>
          lift (console_error "Registration failed:" (message error));;
          lift (toast {| title := "Registration failed";
                         description := message error;
                         variant := Some "destructive" |});;
          lift (throw error)))
    (lift (setIsLoading false)).

(** The result of [signOut] is awaited and dropped: only a rejection
    reaches the [catch]. *)
Definition logout (resp : Response) : P unit :=
  tryCatch
    (_ ← awaitAuth SignOut resp;
     lift (setUser (fun _ => None));;
     lift (classList_set_dark false))
    (fun error =>
       lift (console_error "Logout failed:" (message error));;
       lift (toast {| title := "Logout failed";
                      description := message error;
                      variant := Some "destructive" |})).

(** The row a select hands to [formatUser]: the [data] of a result that
    resolved without an error. *)
Definition profile_of (resp : ProfileResponse) : option Supabase.Profile :=
  match resp with
  | ProfileResolved data None => data
  | ProfileResolved _ (Some _) => None
  | ProfileRejected _ => None
  end.

(** The dark class of the root element mirrors the theme of the loaded
    profile. *)
Definition theme_in_sync (w : World) : Prop :=
  dark w = match AuthContext.user w with
           | Some u => strict_eq (AuthContext.theme u) "dark"
           | None => false
           end.

End AuthProvider.

(** ** Sample data

    A clock reading 2024-01-15T12:34:56.789Z (a Monday) in a time zone
    five and a half hours ahead of UTC, a few fetched records, and two
    worlds of the auth provider. *)

Module Sample.
Import FoodMenu.

Definition host : JS.DateHost := IsoDate.host 1705322096789 19800000.

(** Midnight UTC of 2024-01-15. *)
Definition today_ms : Z := 1705276800000.

Definition yesterday_dinner : ScheduledMenu :=
  {| id := "m0"; date := "2024-01-14"; meal_type := "dinner";
     items := ItemsArray ["Soup"]; published := true |}.

Definition today_lunch : ScheduledMenu :=
  {| id := "m1"; date := "2024-01-15"; meal_type := "lunch";
     items := ItemsObject {["lunch" := ["Rice"; "Dal"]]};
     published := true |}.

Definition tomorrow_breakfast : ScheduledMenu :=
  {| id := "m2"; date := "2024-01-16"; meal_type := "breakfast";
     items := ItemsArray ["Tea"; "Toast"]; published := true |}.

Definition next_monday_lunch : ScheduledMenu :=
  {| id := "m3"; date := "2024-01-22"; meal_type := "lunch";
     items := ItemsArray ["Pasta"]; published := true |}.

(** A record with nothing to show. *)
Definition tomorrow_snacks : ScheduledMenu :=
  {| id := "m5"; date := "2024-01-16"; meal_type := "snacks";
     items := ItemsArray []; published := true |}.

(** Sixty days ahead, a Friday. *)
Definition march_lunch : ScheduledMenu :=
  {| id := "m4"; date := "2024-03-15"; meal_type := "lunch";
     items := ItemsObject {["lunch" := ["Rice"; "Dal"]]};
     published := true |}.

Definition alice : AuthContext.User :=
  {| AuthContext.id := "u1"; AuthContext.name := "Alice";
     AuthContext.email := "alice@example.org";
     AuthContext.roomNumber := "B-12"; AuthContext.regNumber := "R100";
     AuthContext.phoneNumber := None; AuthContext.avatar := None;
     AuthContext.theme := Some "light"; AuthContext.isAdmin := Some false |}.

Definition signed_out : AuthContext.World :=
  {| AuthContext.user := None; AuthContext.isLoading := false;
     AuthContext.dark := false; AuthContext.toasts := [];
     AuthContext.console := []; AuthContext.remote := [] |}.

Definition signed_in : AuthContext.World :=
  {| AuthContext.user := Some alice; AuthContext.isLoading := false;
     AuthContext.dark := false; AuthContext.toasts := [];
     AuthContext.console := []; AuthContext.remote := [] |}.

(** The partial of [updateProfile({ name: '', email: ... })]. *)
Definition new_email : AuthContext.Partial.User :=
  {| AuthContext.Partial.id := None;
     AuthContext.Partial.name := Some "";
     AuthContext.Partial.email := Some "alice@example.com";
     AuthContext.Partial.roomNumber := None;
     AuthContext.Partial.regNumber := None;
     AuthContext.Partial.phoneNumber := None;
     AuthContext.Partial.avatar := None;
     AuthContext.Partial.theme := None;
     AuthContext.Partial.isAdmin := None |}.

(** The partial of [updateProfile({ theme: 'dark' })]. *)
Definition go_dark : AuthContext.Partial.User :=
  {| AuthContext.Partial.id := None;
     AuthContext.Partial.name := None;
     AuthContext.Partial.email := None;
     AuthContext.Partial.roomNumber := None;
     AuthContext.Partial.regNumber := None;
     AuthContext.Partial.phoneNumber := None;
     AuthContext.Partial.avatar := None;
     AuthContext.Partial.theme := Some (Some "dark");
     AuthContext.Partial.isAdmin := None |}.

Definition network_down : AuthContext.Error :=
  {| AuthContext.message := "Failed to fetch" |}.

Definition bad_credentials : AuthContext.Error :=
  {| AuthContext.message := "Invalid login credentials" |}.

(** A record whose meal type names a member every object inherits, and
    whose items hold no entry of that name. *)
Definition inherited_key : ScheduledMenu :=
  {| id := "m6"; date := "2024-01-16"; meal_type := "toString";
     items := ItemsObject {["lunch" := ["Rice"]]}; published := true |}.

(** The same clock five hours behind UTC: 07:34 on Monday morning. *)
Definition west : JS.DateHost := IsoDate.host 1705322096789 (-18000000).

(** 2024-01-15T20:00Z five and a half hours ahead of UTC: half past one
    in the morning of Tuesday the 16th. *)
Definition late : JS.DateHost := IsoDate.host 1705348800000 19800000.

(** 2024-01-16T01:00Z five hours behind UTC: eight in the evening of
    Monday the 15th. *)
Definition west_evening : JS.DateHost :=
  IsoDate.host 1705366800000 (-18000000).

(** A record with its id blanked and its published flag cleared. *)
Definition unpublish (r : ScheduledMenu) : ScheduledMenu :=
  {| id := ""; date := date r; meal_type := meal_type r; items := items r;
     published := false |}.

(** The provider before anything happened, and with Alice signed in. *)
Definition fresh : AuthProvider.Provider :=
  {| AuthProvider.world := signed_out; AuthProvider.calls := [] |}.

Definition with_alice : AuthProvider.Provider :=
  {| AuthProvider.world := signed_in; AuthProvider.calls := [] |}.

Definition alice_auth : AuthProvider.Supabase.User :=
  {| AuthProvider.Supabase.id := "u1";
     AuthProvider.Supabase.email := Some "alice@example.org" |}.

Definition alice_session : AuthProvider.Supabase.Session :=
  {| AuthProvider.Supabase.user := Some alice_auth |}.

Definition alice_row : AuthProvider.Supabase.Profile :=
  {| AuthProvider.Supabase.name := "Alice";
     AuthProvider.Supabase.room_number := "B-12";
     AuthProvider.Supabase.reg_number := "R100";
     AuthProvider.Supabase.phone_number := None;
     AuthProvider.Supabase.avatar := None;
     AuthProvider.Supabase.theme := Some "dark" |}.

End Sample.

(** * Properties *)

(** ** The runtime helpers *)

Section JoinFacts.
Import JS.

Lemma append_assoc (a b c : string) : (a +:+ b) +:+ c = a +:+ (b +:+ c).
Proof.
  induction a as [|ch a IH]; [reflexivity|].
  change (String ch ((a +:+ b) +:+ c) = String ch (a +:+ (b +:+ c))).
  by rewrite IH.
Qed.

Lemma append_empty_r (a : string) : a +:+ "" = a.
Proof.
  induction a as [|ch a IH]; [reflexivity|].
  change (String ch (a +:+ "") = String ch a). by rewrite IH.
Qed.

(** Past the first element the loop of [join] only appends. *)
Lemma join_from_later (sep : string) (xs : list string) :
  forall (R : string) (k : nat),
    join_from sep R (S k) xs
    = R +:+ match xs with
            | [] => ""
            | _ :: _ => sep +:+ String.concat sep xs
            end.
Proof.
  induction xs as [|x xs IH]; intros R k; simpl.
  - by rewrite append_empty_r.
  - rewrite IH. destruct xs as [|y ys].
    + by rewrite append_empty_r, append_assoc.
    + by rewrite !append_assoc.
Qed.

(** [join] is the concatenation with a separator of the standard
    library. *)
Lemma join_concat (sep : string) (xs : list string) :
  join sep xs = String.concat sep xs.
Proof.
  unfold join. destruct xs as [|x xs]; [reflexivity|].
  change (join_from sep x 1 xs = String.concat sep (x :: xs)).
  rewrite join_from_later.
  destruct xs; [apply append_empty_r | reflexivity].
Qed.

Lemma truthy_true (s : string) : truthy s = true <-> s <> "".
Proof.
  unfold truthy. destruct (String.eqb_spec s ""); simpl; split; congruence.
Qed.

Lemma truthy_false (s : string) : truthy s = false <-> s = "".
Proof.
  unfold truthy. destruct (String.eqb_spec s ""); simpl; split; congruence.
Qed.
End JoinFacts.

Section SortFacts.
Import JS.
Context {A : Type} (comparefn : A -> A -> option Z).

Lemma sort_insert_perm (x : A) (l : list A) :
  sort_insert comparefn x l ≡ₚ x :: l.
Proof.
  induction l as [|y l IH]; simpl; [done|].
  destruct (sort_le comparefn x y); [done|].
  rewrite IH. apply Permutation_swap.
Qed.

Lemma sort_perm (l : list A) : sort comparefn l ≡ₚ l.
Proof.
  induction l as [|x l IH]; simpl; [done|].
  unfold sort in IH. by rewrite sort_insert_perm, IH.
Qed.

Lemma elem_of_sort (x : A) (l : list A) : x ∈ sort comparefn l <-> x ∈ l.
Proof. by rewrite sort_perm. Qed.

(** The sort is stable: elements that compare as equal to one another keep
    the order they came in. *)
Lemma sort_insert_stable (p : A -> bool) (x : A) (l : list A) :
  (forall y, y ∈ l -> p x = true -> p y = true -> sort_le comparefn x y = true) ->
  List.filter p (sort_insert comparefn x l) = List.filter p (x :: l).
Proof.
  induction l as [|y l IH]; intros Hle; [done|].
  simpl. destruct (sort_le comparefn x y) eqn:Hxy; [done|].
  simpl. rewrite IH by (intros z Hz; apply Hle; by right). simpl.
  destruct (p x) eqn:Hx, (p y) eqn:Hy; try done.
  rewrite Hle in Hxy; [done|by left|done..].
Qed.

Lemma sort_stable (p : A -> bool) (l : list A) :
  (forall x y, p x = true -> p y = true -> sort_le comparefn x y = true) ->
  List.filter p (sort comparefn l) = List.filter p l.
Proof.
  intros Hle. induction l as [|x l IH]; [done|].
  simpl. rewrite sort_insert_stable by (intros; by apply Hle).
  simpl. fold (sort comparefn l). by rewrite IH.
Qed.

(** In a strongly sorted list an element that is not below another one
    stands after it. *)
Lemma StronglySorted_order (R : relation A) (l : list A) (a b : A) :
  StronglySorted R l -> a ∈ l -> b ∈ l -> a <> b -> ~ R b a ->
  exists l1 l2 l3, l = l1 ++ a :: l2 ++ b :: l3.
Proof.
  intros Hs. induction Hs as [|x l Hs IH Hall]; intros Ha Hb Hne Hnot.
  - by apply elem_of_nil in Ha.
  - apply elem_of_cons in Ha as [->|Ha].
    + apply elem_of_cons in Hb as [->|Hb]; [done|].
      apply list_elem_of_split in Hb as (l2 & l3 & ->).
      by exists [], l2, l3.
    + apply elem_of_cons in Hb as [->|Hb].
      * rewrite Forall_forall in Hall. destruct Hnot. by apply Hall.
      * destruct (IH Ha Hb Hne Hnot) as (l1 & l2 & l3 & ->).
        by exists (x :: l1), l2, l3.
Qed.
End SortFacts.

(** ** The menu resolver *)

Section ResolverFacts.
Import JS FoodMenu.
Context `{DateHost}.

(** The guard on the length only skips work: with no record the loop has
    nothing to run over. *)
Lemma menusByDay_forEach (scheduledMenus : list ScheduledMenu) :
  menusByDay scheduledMenus
  = forEach initGrouped (sortedRelevantMenus scheduledMenus).
Proof. by destruct scheduledMenus. Qed.

Lemma initGrouped_fallback : initGrouped = fallbackWeeklyMenu.
Proof. vm_cast_no_check (eq_refl fallbackWeeklyMenu). Qed.

Lemma onOrAfterToday_spec (menu : ScheduledMenu) :
  onOrAfterToday menu = true
  <-> exists t0 t, Date_parse getTodayDateString = Some t0
                   /\ getTime menu = Some t /\ t0 <= t.
Proof.
  unfold onOrAfterToday, getTime, date_ge. split.
  - destruct (Date_parse (date menu)) as [t|]; [|done].
    destruct (Date_parse getTodayDateString) as [t0|]; [|done].
    intros Hle. exists t0, t. split_and!; [done..|lia].
  - intros (t0 & t & -> & -> & Hle). lia.
Qed.

Lemma elem_of_relevantMenus (menu : ScheduledMenu) (l : list ScheduledMenu) :
  menu ∈ relevantMenus l <-> menu ∈ l /\ onOrAfterToday menu = true.
Proof.
  unfold relevantMenus. rewrite !list_elem_of_In, filter_In. done.
Qed.

Lemma elem_of_sortedRelevantMenus (menu : ScheduledMenu)
      (l : list ScheduledMenu) :
  menu ∈ sortedRelevantMenus l <-> menu ∈ l /\ onOrAfterToday menu = true.
Proof.
  unfold sortedRelevantMenus. by rewrite elem_of_sort, elem_of_relevantMenus.
Qed.

(** A valid date has a weekday among the seven names. *)
Lemma dayName_days (menu : ScheduledMenu) (t : Z) :
  getTime menu = Some t -> dayName menu ∈ days.
Proof.
  unfold getTime, dayName, getDay. intros ->.
  unfold WeekDay. set (d := Day (t + LocalTZA t) + 4).
  pose proof (Z.mod_pos_bound d 7 ltac:(lia)) as Hb.
  destruct (Z.leb_spec 0 (d mod 7)) as [_|]; [|lia].
  assert (Hc : d mod 7 = 0 \/ d mod 7 = 1 \/ d mod 7 = 2 \/ d mod 7 = 3
               \/ d mod 7 = 4 \/ d mod 7 = 5 \/ d mod 7 = 6) by lia.
  clear Hb.
  destruct Hc as [-> | [-> | [-> | [-> | [-> | [-> | ->]]]]]];
    simpl; unfold days; repeat constructor.
Qed.

(** A record does one of three things in the callback: it throws, it
    writes, or it is skipped. *)
Lemma writes_true (menu : ScheduledMenu) :
  writes menu = true
  <-> guard menu = true
      /\ exists s, itemsString menu = Some s /\ s <> "".
Proof.
  unfold writes. rewrite andb_true_iff. split.
  - intros [Hg Hs]. split; [done|].
    destruct (itemsString menu) as [s|]; [|done].
    exists s. split; [done|]. by apply truthy_true.
  - intros [Hg (s & -> & Hs)]. split; [done|]. by apply truthy_true.
Qed.

Lemma throws_true (menu : ScheduledMenu) :
  throws menu = true <-> guard menu = true /\ itemsString menu = None.
Proof.
  unfold throws. rewrite andb_true_iff.
  destruct (itemsString menu); intuition congruence.
Qed.

Lemma writes_not_throws (menu : ScheduledMenu) :
  writes menu = true -> throws menu = false.
Proof.
  unfold writes, throws. destruct (guard menu); [|done].
  by destruct (itemsString menu).
Qed.

Lemma applyMenu_writes (g : gmap string (gmap string string))
      (menu : ScheduledMenu) (s : string) :
  writes menu = true -> itemsString menu = Some s ->
  applyMenu g menu
  = Some (<[dayName menu :=
              <[meal_type menu := s]> (spread g (dayName menu))]> g).
Proof.
  unfold writes, guard, applyMenu. intros Hw Hs. rewrite Hs in *.
  apply andb_true_iff in Hw as [-> ->]. done.
Qed.

Lemma applyMenu_skips (g : gmap string (gmap string string))
      (menu : ScheduledMenu) :
  writes menu = false -> throws menu = false -> applyMenu g menu = Some g.
Proof.
  unfold writes, throws, guard, applyMenu.
  destruct (items_truthy (items menu) && truthy (meal_type menu)); [|done].
  simpl. destruct (itemsString menu) as [s|]; [|done]. by intros ->.
Qed.

Lemma applyMenu_None (g : gmap string (gmap string string))
      (menu : ScheduledMenu) :
  applyMenu g menu = None <-> throws menu = true.
Proof.
  unfold throws, guard, applyMenu.
  destruct (items_truthy (items menu) && truthy (meal_type menu)); [|done].
  simpl. destruct (itemsString menu) as [s|]; [|done].
  by destruct (truthy s).
Qed.

(** The loop throws exactly when the callback throws on one of its
    records. *)
Lemma forEach_None (l : list ScheduledMenu) :
  forall g : gmap string (gmap string string),
    forEach g l = None <-> exists r, r ∈ l /\ throws r = true.
Proof.
  induction l as [|x l IH]; intros g; simpl.
  - split; [done|]. intros (r & Hr & _). by apply elem_of_nil in Hr.
  - destruct (applyMenu g x) as [g'|] eqn:Hx.
    + rewrite IH. split.
      * intros (r & Hr & Ht). exists r. split; [by right|done].
      * intros (r & Hr & Ht). apply elem_of_cons in Hr as [->|Hr].
        -- apply applyMenu_None with (g := g) in Ht. congruence.
        -- by exists r.
    + split; [|done]. intros _. exists x. split; [by left|].
      by eapply applyMenu_None.
Qed.

Lemma forEach_app (l1 l2 : list ScheduledMenu) :
  forall g : gmap string (gmap string string),
    forEach g (l1 ++ l2) = forEach g l1 ≫= fun g' => forEach g' l2.
Proof.
  induction l1 as [|x l1 IH]; intros g; simpl; [done|].
  destruct (applyMenu g x); [apply IH|done].
Qed.

(** [menusByDay] throws exactly when the callback throws on a fetched
    record dated today or later. *)
Lemma menusByDay_None (menus : list ScheduledMenu) :
  menusByDay menus = None
  <-> exists r, r ∈ menus /\ onOrAfterToday r = true /\ throws r = true.
Proof.
  rewrite menusByDay_forEach, forEach_None. split.
  - intros (r & Hr & Ht).
    apply elem_of_sortedRelevantMenus in Hr as [Hin Hrel]. by exists r.
  - intros (r & Hin & Hrel & Ht). exists r. split; [|done].
    by apply elem_of_sortedRelevantMenus.
Qed.

(** What a slot reads after one record went through the callback. *)
Lemma slot_applyMenu (g g' : gmap string (gmap string string))
      (menu : ScheduledMenu) (day meal : string) :
  applyMenu g menu = Some g' ->
  slot g' day meal
  = if writes menu && bool_decide (day = dayName menu)
       && bool_decide (meal = meal_type menu)
    then itemsString menu
    else slot g day meal.
Proof.
  intros Hrun. destruct (writes menu) eqn:Hw.
  - destruct (proj1 (writes_true menu) Hw) as (_ & s & Hs & _).
    rewrite (applyMenu_writes g menu s Hw Hs) in Hrun.
    injection Hrun as <-. unfold slot, spread. simpl.
    case_bool_decide as Hd; simpl.
    + subst day. rewrite lookup_insert_eq. simpl.
      case_bool_decide as Hm.
      * subst meal. by rewrite lookup_insert_eq.
      * rewrite lookup_insert_ne by done.
        by destruct (g !! dayName menu).
    + by rewrite lookup_insert_ne.
  - destruct (throws menu) eqn:Ht.
    + apply applyMenu_None with (g := g) in Ht. congruence.
    + rewrite applyMenu_skips in Hrun by done. by injection Hrun as <-.
Qed.

(** A day no record of the run writes to is as it was. *)
Lemma forEach_day (l : list ScheduledMenu) (day : string) :
  forall g g' : gmap string (gmap string string),
    forEach g l = Some g' ->
    Forall (fun menu => writes menu = true -> dayName menu <> day) l ->
    g' !! day = g !! day.
Proof.
  induction l as [|menu l IH]; intros g g' Hrun Hall; simpl in Hrun.
  - by injection Hrun as <-.
  - apply Forall_cons in Hall as [Hm Hall].
    destruct (applyMenu g menu) as [g1|] eqn:Hx; [|done].
    rewrite (IH g1 g' Hrun Hall).
    destruct (writes menu) eqn:Hw.
    + destruct (proj1 (writes_true menu) Hw) as (_ & s & Hs & _).
      rewrite (applyMenu_writes g menu s Hw Hs) in Hx.
      injection Hx as <-. rewrite lookup_insert_ne; [done|].
      by apply Hm.
    + destruct (throws menu) eqn:Ht.
      * apply applyMenu_None with (g := g) in Ht. congruence.
      * rewrite applyMenu_skips in Hx by done. by injection Hx as <-.
Qed.

Lemma slot_applyMenu_other (g g' : gmap string (gmap string string))
      (menu : ScheduledMenu) (day meal : string) :
  applyMenu g menu = Some g' ->
  ~ writesSlot day meal menu ->
  slot g' day meal = slot g day meal.
Proof.
  intros Hrun Hn. rewrite (slot_applyMenu g g' menu day meal Hrun).
  destruct (writes menu) eqn:Hw; [|done]. simpl.
  repeat case_bool_decide; simpl; try done.
  destruct Hn. by repeat split.
Qed.

Lemma slot_applyMenu_hit (g g' : gmap string (gmap string string))
      (menu : ScheduledMenu) (day meal : string) :
  applyMenu g menu = Some g' ->
  writesSlot day meal menu ->
  slot g' day meal = itemsString menu.
Proof.
  intros Hrun (Hw & <- & <-).
  rewrite (slot_applyMenu g g' menu _ _ Hrun), Hw.
  by rewrite !bool_decide_eq_true_2.
Qed.

(** A slot no record of the run assigns to is as it was. *)
Lemma forEach_slot (l : list ScheduledMenu) (day meal : string) :
  forall g g' : gmap string (gmap string string),
    forEach g l = Some g' ->
    Forall (fun menu => ~ writesSlot day meal menu) l ->
    slot g' day meal = slot g day meal.
Proof.
  induction l as [|menu l IH]; intros g g' Hrun Hall; simpl in Hrun.
  - by injection Hrun as <-.
  - apply Forall_cons in Hall as [Hm Hall].
    destruct (applyMenu g menu) as [g1|] eqn:Hx; [|done].
    rewrite (IH g1 g' Hrun Hall). by eapply slot_applyMenu_other.
Qed.

(** The last record of the run that assigns to a slot decides it. *)
Lemma forEach_last (l1 l2 : list ScheduledMenu)
      (menu : ScheduledMenu) (day meal : string)
      (g g' : gmap string (gmap string string)) :
  forEach g (l1 ++ menu :: l2) = Some g' ->
  writesSlot day meal menu ->
  Forall (fun later => ~ writesSlot day meal later) l2 ->
  slot g' day meal = itemsString menu.
Proof.
  intros Hrun Hw Hall. rewrite forEach_app in Hrun.
  destruct (forEach g l1) as [g1|]; [|done]. simpl in Hrun.
  destruct (applyMenu g1 menu) as [g2|] eqn:Hx; [|done].
  rewrite (forEach_slot l2 day meal g2 g' Hrun Hall).
  by eapply slot_applyMenu_hit.
Qed.

(** A run over records that all write or are skipped completes. *)
Lemma forEach_completes (l : list ScheduledMenu) :
  forall g : gmap string (gmap string string),
    Forall (fun r => throws r = false) l -> is_Some (forEach g l).
Proof.
  intros g Hall. destruct (forEach g l) as [g'|] eqn:Hrun; [done|].
  apply forEach_None in Hrun as (r & Hr & Ht).
  rewrite Forall_forall in Hall. specialize (Hall r Hr). congruence.
Qed.

Lemma sort_insert_chron (x : ScheduledMenu) (l : list ScheduledMenu) :
  is_Some (getTime x) -> Forall (fun r => is_Some (getTime r)) l ->
  StronglySorted chron_le l ->
  StronglySorted chron_le (sort_insert byDate x l).
Proof.
  intros [tx Hx] Hval Hs. induction Hs as [|y l Hs IH Hall]; simpl.
  - repeat constructor.
  - apply Forall_cons in Hval as [[ty Hy] Hval].
    unfold sort_le, byDate, time_sub. unfold getTime in Hx, Hy.
    rewrite Hx, Hy. destruct (Z.leb_spec (tx - ty) 0) as [Hle|Hgt].
    + constructor; [by constructor|].
      assert (Hxy : chron_le x y) by (exists tx, ty; split_and!; [done..|lia]).
      constructor; [done|].
      eapply Forall_impl; [exact Hall|].
      intros z (a & b & Ha & Hb & Hab). exists tx, b.
      unfold getTime in *. split_and!; [done..|].
      assert (a = ty) by congruence. lia.
    + constructor; [by apply IH|].
      rewrite sort_insert_perm. constructor; [|done].
      exists ty, tx. unfold getTime. split_and!; [done..|lia].
Qed.

Lemma sort_chron (l : list ScheduledMenu) :
  Forall (fun r => is_Some (getTime r)) l ->
  StronglySorted chron_le (sort byDate l).
Proof.
  induction l as [|x l IH]; intros Hval; simpl; [constructor|].
  apply Forall_cons in Hval as [Hx Hval].
  apply sort_insert_chron; [done| |by apply IH].
  fold (sort byDate l). by rewrite sort_perm.
Qed.

(** Records of one date go through the loop in the order they were
    fetched in. *)
Lemma sortedRelevantMenus_stable (menus : list ScheduledMenu) (t : Z) :
  List.filter (fun r => bool_decide (getTime r = Some t))
              (sortedRelevantMenus menus)
  = List.filter (fun r => bool_decide (getTime r = Some t))
                (relevantMenus menus).
Proof.
  apply sort_stable. intros x y Hx Hy.
  apply bool_decide_eq_true in Hx, Hy. unfold getTime in Hx, Hy.
  unfold sort_le, byDate, time_sub. rewrite Hx, Hy. lia.
Qed.

(** The loop runs over the applied records in ascending date order. *)
Lemma sortedRelevantMenus_chron (menus : list ScheduledMenu) :
  StronglySorted chron_le (sortedRelevantMenus menus).
Proof.
  apply sort_chron, Forall_forall. intros r Hr.
  apply elem_of_relevantMenus in Hr as [_ Hr].
  apply onOrAfterToday_spec in Hr as (t0 & t & _ & Ht & _). by exists t.
Qed.

(** A record that is on or after today stays so at any later date. *)
Lemma onOrAfterToday_later (a b : ScheduledMenu) (ta tb : Z) :
  onOrAfterToday a = true -> getTime a = Some ta -> getTime b = Some tb ->
  ta <= tb -> onOrAfterToday b = true.
Proof.
  intros Ha Hta Htb Hle.
  apply onOrAfterToday_spec in Ha as (t0 & t & Ht0 & Ht & Hle0).
  apply onOrAfterToday_spec. exists t0, tb.
  split_and!; [done..|]. assert (t = ta) by congruence. lia.
Qed.

Lemma initGrouped_covered : covered initGrouped.
Proof.
  intros day meal Hd Hm. unfold days, meals in *.
  repeat (apply elem_of_cons in Hd as [->|Hd]);
    try (by apply elem_of_nil in Hd);
    repeat (apply elem_of_cons in Hm as [->|Hm]);
    try (by apply elem_of_nil in Hm);
    (eexists; split; [by vm_compute | done]).
Qed.

Lemma applyMenu_covered (g g' : gmap string (gmap string string))
      (menu : ScheduledMenu) :
  applyMenu g menu = Some g' -> covered g -> covered g'.
Proof.
  intros Hrun Hg day meal Hd Hm.
  rewrite (slot_applyMenu g g' menu day meal Hrun).
  destruct (writes menu && bool_decide (day = dayName menu)
            && bool_decide (meal = meal_type menu)) eqn:Hc.
  - rewrite !andb_true_iff in Hc. destruct Hc as [[Hw _] _].
    apply writes_true in Hw as (_ & s & Hs & Hne). by exists s.
  - by apply Hg.
Qed.

(** When the loop completes, every slot of the seven days still holds a
    text that is not empty. *)
Lemma forEach_covered (l : list ScheduledMenu) :
  forall g g' : gmap string (gmap string string),
    forEach g l = Some g' -> covered g -> covered g'.
Proof.
  induction l as [|menu l IH]; intros g g' Hrun Hg; simpl in Hrun.
  - by injection Hrun as <-.
  - destruct (applyMenu g menu) as [g1|] eqn:Hx; [|done].
    eapply IH; [done|]. by eapply applyMenu_covered.
Qed.

End ResolverFacts.

(** ** Where the resolver departs from what is said of it *)

Section ResolverDefects.
Import JS FoodMenu FoodMenuPage Sample.

(** Both sides of the goal are closed: run them. *)
Ltac evaluate := vm_compute; reflexivity.

(** Claim C1, at inputs where the code departs from it.  Today is taken
    from the UTC date of the clock, not from the calendar date the user
    is in.  At half past one in the morning of the 16th, five and a half
    hours ahead of UTC, a record dated the 15th, yesterday, passes the
    filter and replaces Monday's lunch.  At eight in the evening of the
    15th, five hours behind UTC, a record dated the 15th, today, is
    filtered out and the result is the fallback.  And five hours behind
    UTC a record dated Friday 2024-03-15, sixty days ahead, is written
    into Thursday's bucket, not into that of its weekday. *)
Theorem today_is_the_utc_date :
  (claimed_date (H := late) today_lunch = Some (claimed_today (H := late) - 1)
   /\ onOrAfterToday (H := late) today_lunch = true
   /\ (g ← menusByDay (H := late) [yesterday_dinner; today_lunch];
       slot g "monday" "lunch") = Some "Rice, Dal"
   /\ slot fallbackWeeklyMenu "monday" "lunch"
      = Some "Rice, Dal, Aloo Gobi, Chapati, Curd, Pickle")
  /\ (claimed_date (H := west_evening) today_lunch
      = Some (claimed_today (H := west_evening))
      /\ onOrAfterToday (H := west_evening) today_lunch = false
      /\ menusByDay (H := west_evening) [today_lunch] = Some fallbackWeeklyMenu)
  /\ (claimed_dayName (H := west) march_lunch = Some "friday"
      /\ dayName (H := west) march_lunch = "thursday"
      /\ (g ← menusByDay (H := west) [march_lunch]; slot g "thursday" "lunch")
         = Some "Rice, Dal"
      /\ (g ← menusByDay (H := west) [march_lunch]; slot g "friday" "lunch")
         = Some "Rice, Chole, Aloo Jeera, Chapati, Raita").
Proof.
  split; [|split].
  - repeat (split; [evaluate|]); evaluate.
  - split; [vm_compute; reflexivity|]. split; [vm_compute; reflexivity|].
    rewrite menusByDay_forEach.
    replace (sortedRelevantMenus (H := west_evening) [today_lunch])
      with (@nil ScheduledMenu) by (vm_compute; reflexivity).
    exact (f_equal Some initGrouped_fallback).
  - repeat (split; [evaluate|]); evaluate.
Qed.

(** Claim C2, at inputs where the code departs from it.  No fetched
    record falls on Monday, yet Monday does not come out as its fallback
    entry.  With the one record dated Tuesday whose meal type names an
    inherited member, the callback throws and there is no resolved menu
    at all.  And five hours behind UTC the one record dated Tuesday is
    filed under Monday and replaces Monday's breakfast. *)
Theorem unmatched_day_not_fallback :
  (claimed_dayName (H := host) inherited_key = Some "tuesday"
   /\ dayName (H := host) inherited_key = "tuesday"
   /\ menusByDay (H := host) [inherited_key] = None)
  /\ (claimed_dayName (H := west) tomorrow_breakfast = Some "tuesday"
      /\ (g ← menusByDay (H := west) [tomorrow_breakfast];
          slot g "monday" "breakfast") = Some "Tea, Toast"
      /\ slot fallbackWeeklyMenu "monday" "breakfast"
         = Some "Idli, Vada, Sambar, Coconut Chutney, Coffee/Tea").
Proof.
  split; repeat (split; [evaluate|]); evaluate.
Qed.


(** Claim C4, at an input where the code departs from it.  Five hours
    behind UTC, at 07:34 on Monday 2024-01-15, the record dated today
    with meal type lunch and items keyed lunch: Rice, Dal is filed under
    Sunday: Monday, today's weekday and the tab opened first, keeps its
    fallback lunch. *)
Theorem today_lunch_under_sunday :
  date today_lunch = getTodayDateString (H := west)
  /\ getCurrentDay (H := west) = Some "monday"
  /\ claimed_dayName (H := west) today_lunch = Some "monday"
  /\ dayName (H := west) today_lunch = "sunday"
  /\ (g ← menusByDay (H := west) [today_lunch]; slot g "monday" "lunch")
     = Some "Rice, Dal, Aloo Gobi, Chapati, Curd, Pickle"
  /\ (g ← menusByDay (H := west) [today_lunch]; slot g "sunday" "lunch")
     = Some "Rice, Dal".
Proof.
  repeat (split; [evaluate|]); evaluate.
Qed.



End ResolverDefects.

(** ** The session/profile binder *)

Section BinderSpec.
Import JS AuthContext.

Lemma newThemeOf_light_or_dark (u : User) :
  newThemeOf u = "light" \/ newThemeOf u = "dark".
Proof.
  unfold newThemeOf. destruct (theme u) as [t|]; [|by left].
  destruct (String.eqb t "light"); auto.
Qed.

Lemma assign_if_truthy_other (k j : string) (v : option string)
      (m : gmap string string) :
  j <> k -> assign_if_truthy k v m !! j = m !! j.
Proof.
  intros Hne. unfold assign_if_truthy. destruct v as [s|]; [|done].
  destruct (truthy s); [|done]. by rewrite lookup_insert_ne.
Qed.

(** The remote record is only ever sent the four mapped columns. *)
Lemma profileUpdatesOf_other (updates : Partial.User) (j : string) :
  j ∉ mapped_columns -> profileUpdatesOf updates !! j = None.
Proof.
  unfold mapped_columns. rewrite !not_elem_of_cons.
  intros (Hn & Hp & Ha & Ht & _). unfold profileUpdatesOf.
  assert (Hrest : assign_if_truthy "avatar" (mjoin (Partial.avatar updates))
                    (assign_if_truthy "phone_number"
                       (mjoin (Partial.phoneNumber updates))
                       (assign_if_truthy "name" (Partial.name updates) ∅))
                  !! j = None).
  { rewrite !assign_if_truthy_other by done. apply lookup_empty. }
  destruct (mjoin (Partial.theme updates)) as [t|]; [|done].
  destruct (truthy t && (String.eqb t "light" || String.eqb t "dark"));
    [|done].
  by rewrite lookup_insert_ne.
Qed.

(** A name that is present but empty is not sent. *)
Lemma profileUpdatesOf_empty_name (updates : Partial.User) :
  Partial.name updates = Some "" -> profileUpdatesOf updates !! "name" = None.
Proof.
  intros Hn. unfold profileUpdatesOf. rewrite Hn.
  assert (Hrest : assign_if_truthy "avatar" (mjoin (Partial.avatar updates))
                    (assign_if_truthy "phone_number"
                       (mjoin (Partial.phoneNumber updates))
                       (assign_if_truthy "name" (Some "") ∅))
                  !! "name" = None).
  { rewrite !assign_if_truthy_other by done. apply lookup_empty. }
  destruct (mjoin (Partial.theme updates)) as [t|]; [|done].
  destruct (truthy t && (String.eqb t "light" || String.eqb t "dark"));
    [|done].
  by rewrite lookup_insert_ne.
Qed.

(** Claim C7.  When the sign-in call fails, by resolving with an error or
    by rejecting, [login] does not touch the user state (null stays
    null), ends with the loading flag false, has shown the destructive
    "Login failed" toast with the error's message, and throws that
    error to its caller. *)
Theorem login_failure (email password : string) (resp : Response)
        (err : Error) (w : World) :
  failure resp = Some err ->
  exists w',
    login email password resp w = (w', Throw err)
    /\ user w' = user w
    /\ (user w = None -> user w' = None)
    /\ isLoading w' = false
    /\ toasts w' = toasts w ++ [{| title := "Login failed";
                                   description := message err;
                                   variant := Some "destructive" |}]
    /\ remote w' = remote w ++ [SignInWithPassword email password].
Proof.
  intros Hf. destruct resp as [[e|]|e]; simpl in Hf; simplify_eq;
    (eexists; split; [reflexivity|]); simpl; by split_and!.
Qed.

(** Claim C8.  With no profile loaded [updateProfile] returns at once:
    no remote call, the world as it was.  With a profile loaded and the
    remote write failing, the user state, the loading flag and the theme
    class are as before, the destructive "Profile update failed" toast
    is shown, and the callback returns without throwing. *)
Theorem updateProfile_failure_atomic (updates : Partial.User)
        (resp : Response) (w : World) :
  (user w = None -> updateProfile updates resp w = (w, Normal ()))
  /\ (forall u err,
        user w = Some u -> failure resp = Some err ->
        exists w',
          updateProfile updates resp w = (w', Normal ())
          /\ user w' = Some u
          /\ isLoading w' = isLoading w
          /\ dark w' = dark w
          /\ toasts w' = toasts w ++ [{| title := "Profile update failed";
                                         description := message err;
                                         variant := Some "destructive" |}]
          /\ remote w'
             = remote w ++ [ProfilesUpdate (profileUpdatesOf updates) (id u)]).
Proof.
  split.
  - intros Hu. unfold updateProfile, get_user, mbind, M_bind.
    by rewrite Hu.
  - intros u err Hu Hf.
    unfold updateProfile, get_user, mbind, M_bind. rewrite Hu.
    destruct resp as [[e|]|e]; simpl in Hf; simplify_eq;
      (eexists; split; [reflexivity|]); simpl; by split_and!.
Qed.

(** Claim C9.  With no profile loaded [toggleTheme] does nothing.  With
    one loaded, the theme it computes is "light" or "dark" and nothing
    else, "dark" for "light" and "light" for "dark"; that value is what
    the remote write carries, and after a successful write it is the
    theme of the local profile (with the dark class set to match),
    while after a failed write the local profile is as before. *)
Theorem toggleTheme_flips (resp : Response) (w : World) :
  (user w = None -> toggleTheme resp w = (w, Normal ()))
  /\ (forall u,
        user w = Some u ->
        (newThemeOf u = "light" \/ newThemeOf u = "dark")
        /\ (theme u = Some "light" -> newThemeOf u = "dark")
        /\ (theme u = Some "dark" -> newThemeOf u = "light")
        /\ exists w',
             toggleTheme resp w = (w', Normal ())
             /\ remote w'
                = remote w
                  ++ [ProfilesUpdate {["theme" := newThemeOf u]} (id u)]
             /\ (resp = Resolved None ->
                 user w' = Some (with_theme u (newThemeOf u))
                 /\ (theme <$> user w') = Some (Some (newThemeOf u))
                 /\ dark w' = String.eqb (newThemeOf u) "dark")
             /\ (forall err, failure resp = Some err ->
                             user w' = Some u /\ dark w' = dark w)).
Proof.
  split.
  - intros Hu. unfold toggleTheme, get_user, mbind, M_bind. by rewrite Hu.
  - intros u Hu. split_and!.
    + apply newThemeOf_light_or_dark.
    + unfold newThemeOf. by intros ->.
    + unfold newThemeOf. by intros ->.
    + unfold toggleTheme, get_user, mbind, M_bind. rewrite Hu.
      destruct resp as [[e|]|e];
        (eexists; split; [reflexivity|]); simpl; rewrite ?Hu;
        split_and!; try done; intros; simplify_eq; by split_and!.
Qed.

(** Claim C10.  With a profile loaded and the remote write succeeding,
    the local profile becomes the previous one overridden by every key
    of the partial, while the remote record is sent nothing but the four
    mapped columns: an email, room number, registration number or admin
    flag in the partial lands in the local profile, and so does an
    empty name, which the remote write leaves out. *)
Theorem updateProfile_merges_whole_partial (updates : Partial.User)
        (u : User) (w : World) :
  user w = Some u ->
  exists w',
    updateProfile updates (Resolved None) w = (w', Normal ())
    /\ user w' = Some (merge u updates)
    /\ remote w'
       = remote w ++ [ProfilesUpdate (profileUpdatesOf updates) (id u)]
    /\ (forall k, k ∉ mapped_columns -> profileUpdatesOf updates !! k = None)
    /\ (forall v, Partial.email updates = Some v ->
                  email <$> user w' = Some v)
    /\ (forall v, Partial.roomNumber updates = Some v ->
                  roomNumber <$> user w' = Some v)
    /\ (forall v, Partial.regNumber updates = Some v ->
                  regNumber <$> user w' = Some v)
    /\ (forall v, Partial.isAdmin updates = Some v ->
                  isAdmin <$> user w' = Some v)
    /\ (Partial.name updates = Some "" ->
        name <$> user w' = Some ""
        /\ profileUpdatesOf updates !! "name" = None).
Proof.
  intros Hu.
  assert (Hrun : exists w',
             updateProfile updates (Resolved None) w = (w', Normal ())
             /\ user w' = Some (merge u updates)
             /\ remote w'
                = remote w
                  ++ [ProfilesUpdate (profileUpdatesOf updates) (id u)]).
  { unfold updateProfile, get_user, mbind, M_bind. rewrite Hu.
    unfold try_catch, await, throw_if, setUser, mret, M_ret. simpl.
    rewrite Hu.
    destruct (mjoin (Partial.theme updates)) as [t|];
      [destruct (truthy t)|];
      (eexists; split; [reflexivity|by simpl]). }
  destruct Hrun as (w' & Hrun & Huser & Hremote).
  exists w'. rewrite Huser. split_and!; try done.
  - apply profileUpdatesOf_other.
  - intros v Hv. simpl. by rewrite Hv.
  - intros v Hv. simpl. by rewrite Hv.
  - intros v Hv. simpl. by rewrite Hv.
  - intros v Hv. simpl. by rewrite Hv.
  - intros Hn. split; [simpl; by rewrite Hn|].
    by apply profileUpdatesOf_empty_name.
Qed.

End BinderSpec.

(** ** The binder on the sample worlds *)

Section BinderWitnesses.
Import AuthContext Sample.

Lemma login_failure_witness :
  exists w',
    login "alice@example.org" "wrong" (Resolved (Some bad_credentials))
          signed_out
    = (w', Throw bad_credentials)
    /\ user w' = None
    /\ isLoading w' = false
    /\ toasts w' = [{| title := "Login failed";
                       description := "Invalid login credentials";
                       variant := Some "destructive" |}].
Proof.
  destruct (login_failure "alice@example.org" "wrong"
              (Resolved (Some bad_credentials)) bad_credentials signed_out
              eq_refl)
    as (w' & Hrun & _ & Hnull & Hload & Htoast & _).
  exists w'. split; [exact Hrun|]. split; [exact (Hnull eq_refl)|].
  split; [exact Hload|exact Htoast].
Defined.

Lemma updateProfile_failure_atomic_witness :
  updateProfile go_dark (Rejected network_down) signed_out
  = (signed_out, Normal ())
  /\ exists w',
       updateProfile go_dark (Rejected network_down) signed_in
       = (w', Normal ())
       /\ user w' = Some alice
       /\ dark w' = false
       /\ toasts w' = [{| title := "Profile update failed";
                          description := "Failed to fetch";
                          variant := Some "destructive" |}].
Proof.
  split.
  - exact (proj1 (updateProfile_failure_atomic go_dark (Rejected network_down)
                    signed_out) eq_refl).
  - destruct (proj2 (updateProfile_failure_atomic go_dark
                       (Rejected network_down) signed_in)
                alice network_down eq_refl eq_refl)
      as (w' & Hrun & Huser & _ & Hdark & Htoast & _).
    exists w'. split; [exact Hrun|]. split; [exact Huser|].
    split; [exact Hdark|exact Htoast].
Defined.

Lemma toggleTheme_flips_witness :
  toggleTheme (Resolved None) signed_out = (signed_out, Normal ())
  /\ newThemeOf alice = "dark"
  /\ exists w',
       toggleTheme (Resolved None) signed_in = (w', Normal ())
       /\ theme <$> user w' = Some (Some "dark")
       /\ dark w' = true.
Proof.
  split.
  - exact (proj1 (toggleTheme_flips (Resolved None) signed_out) eq_refl).
  - destruct (proj2 (toggleTheme_flips (Resolved None) signed_in) alice eq_refl)
      as (_ & Hlight & _ & w' & Hrun & _ & Hok & _).
    split; [exact (Hlight eq_refl)|].
    destruct (Hok eq_refl) as (_ & Htheme & Hdark).
    exists w'. split; [exact Hrun|]. split; [exact Htheme|exact Hdark].
Defined.

Lemma updateProfile_merges_whole_partial_witness :
  exists w',
    updateProfile new_email (Resolved None) signed_in = (w', Normal ())
    /\ email <$> user w' = Some "alice@example.com"
    /\ name <$> user w' = Some ""
    /\ remote w' = [ProfilesUpdate ∅ "u1"].
Proof.
  destruct (updateProfile_merges_whole_partial new_email alice signed_in
              eq_refl)
    as (w' & Hrun & _ & Hremote & _ & Hemail & _ & _ & _ & Hname).
  exists w'. split; [exact Hrun|].
  split; [exact (Hemail "alice@example.com" eq_refl)|].
  split; [exact (proj1 (Hname eq_refl))|exact Hremote].
Defined.

End BinderWitnesses.

(** * Further properties of the menu page *)

Section ResolverMoreFacts.
Import JS FoodMenu.
Context `{DateHost}.

Lemma initGrouped_keys (day : string) :
  is_Some (initGrouped !! day) <-> day ∈ days.
Proof.
  unfold initGrouped, days. simpl.
  rewrite !lookup_insert_is_Some, lookup_empty, !elem_of_cons, elem_of_nil.
  split.
  - intros Hk. repeat (destruct Hk as [Hk|[_ Hk]]; [by eauto 10|]).
    by destruct Hk.
  - intros Hd.
    destruct (decide ("saturday" = day)); [by left|right; split; [done|]].
    destruct (decide ("friday" = day)); [by left|right; split; [done|]].
    destruct (decide ("thursday" = day)); [by left|right; split; [done|]].
    destruct (decide ("wednesday" = day)); [by left|right; split; [done|]].
    destruct (decide ("tuesday" = day)); [by left|right; split; [done|]].
    destruct (decide ("monday" = day)); [by left|right; split; [done|]].
    destruct (decide ("sunday" = day)); [by left|right; split; [done|]].
    exfalso. repeat (destruct Hd as [->|Hd]; [done|]). done.
Qed.

Lemma applyMenu_keys (g g' : gmap string (gmap string string))
      (menu : ScheduledMenu) (day : string) :
  applyMenu g menu = Some g' ->
  is_Some (g' !! day)
  <-> is_Some (g !! day) \/ (writes menu = true /\ day = dayName menu).
Proof.
  intros Hrun. destruct (writes menu) eqn:Hw.
  - destruct (proj1 (writes_true menu) Hw) as (_ & s & Hs & _).
    rewrite (applyMenu_writes g menu s Hw Hs) in Hrun.
    injection Hrun as <-. rewrite lookup_insert_is_Some.
    split.
    + intros [<-|[_ Hk]]; [by right|by left].
    + intros [Hk|[_ ->]]; [|by left].
      destruct (decide (dayName menu = day)); [by left|by right].
  - destruct (throws menu) eqn:Ht.
    + apply applyMenu_None with (g := g) in Ht. congruence.
    + rewrite applyMenu_skips in Hrun by done. injection Hrun as <-.
      split; [by left|]. by intros [Hk|[Hf _]].
Qed.

Lemma forEach_keys (l : list ScheduledMenu) :
  forall g g' : gmap string (gmap string string),
    forEach g l = Some g' ->
    Forall (fun r => dayName r ∈ days) l ->
    (forall day, is_Some (g !! day) <-> day ∈ days) ->
    forall day, is_Some (g' !! day) <-> day ∈ days.
Proof.
  induction l as [|r l IH]; intros g g' Hrun Hall Hg day; simpl in Hrun.
  - injection Hrun as <-. by apply Hg.
  - apply Forall_cons in Hall as [Hr Hall].
    destruct (applyMenu g r) as [g1|] eqn:Hx; [|done].
    apply (IH g1 g' Hrun Hall). intros d.
    rewrite (applyMenu_keys g g1 r d Hx), Hg. split; [|by left].
    by intros [Hd|[_ ->]].
Qed.

(** Where the text of a slot can come from after a run of the loop. *)
Lemma forEach_source (l : list ScheduledMenu) (day meal s : string) :
  forall g g' : gmap string (gmap string string),
    forEach g l = Some g' ->
    slot g' day meal = Some s ->
    slot g day meal = Some s
    \/ exists r, r ∈ l /\ writesSlot day meal r /\ itemsString r = Some s.
Proof.
  induction l as [|x l IH]; intros g g' Hrun Hs; simpl in Hrun.
  - injection Hrun as <-. by left.
  - destruct (applyMenu g x) as [g1|] eqn:Hx; [|done].
    destruct (IH g1 g' Hrun Hs) as [H1|(r & Hr & Hw & Hi)].
    + rewrite (slot_applyMenu g g1 x day meal Hx) in H1.
      destruct (writes x) eqn:Hw; simpl in H1; [|by left].
      case_bool_decide as Hd; simpl in H1; [|by left].
      case_bool_decide as Hm; simpl in H1; [|by left].
      right. exists x. split; [by left|]. split; [|done].
      by repeat split.
    + right. exists r. split; [by right|done].
Qed.

(** Records that the callback skips leave no trace. *)
Lemma forEach_unskipped (l : list ScheduledMenu) :
  forall g : gmap string (gmap string string),
    forEach g (List.filter (fun r => writes r || throws r) l) = forEach g l.
Proof.
  induction l as [|x l IH]; intros g; [done|].
  simpl. destruct (writes x) eqn:Hw; simpl.
  - destruct (applyMenu g x); [apply IH|done].
  - destruct (throws x) eqn:Ht; simpl.
    + destruct (applyMenu g x); [apply IH|done].
    + rewrite applyMenu_skips by done. apply IH.
Qed.

Lemma sort_le_byDate (x y : ScheduledMenu) (tx ty : Z) :
  getTime x = Some tx -> getTime y = Some ty ->
  sort_le byDate x y = true <-> tx <= ty.
Proof.
  unfold getTime, sort_le, byDate, time_sub. intros -> ->. lia.
Qed.

Lemma sort_insert_filter_out (p : ScheduledMenu -> bool) (x : ScheduledMenu)
      (l : list ScheduledMenu) :
  p x = false ->
  List.filter p (sort_insert byDate x l) = List.filter p l.
Proof.
  intros Hx. induction l as [|y l IH]; simpl; [by rewrite Hx|].
  destruct (sort_le byDate x y); simpl; [by rewrite Hx|].
  by rewrite IH.
Qed.

Lemma sort_insert_filter_in (p : ScheduledMenu -> bool) (x : ScheduledMenu)
      (l : list ScheduledMenu) :
  p x = true -> is_Some (getTime x) ->
  Forall (fun r => is_Some (getTime r)) l -> StronglySorted chron_le l ->
  List.filter p (sort_insert byDate x l)
  = sort_insert byDate x (List.filter p l).
Proof.
  intros Hx [tx Htx] Hval Hs.
  induction Hs as [|y l Hs IH Hall]; simpl; [by rewrite Hx|].
  apply Forall_cons in Hval as [[ty Hty] Hval].
  destruct (sort_le byDate x y) eqn:Hxy.
  - simpl. rewrite Hx.
    assert (Hle : tx <= ty) by (by eapply sort_le_byDate).
    destruct (p y); simpl.
    + by rewrite Hxy.
    + destruct (List.filter p l) as [|z l'] eqn:Hf; [done|]. simpl.
      assert (Hz : z ∈ l).
      { apply list_elem_of_In. eapply proj1, filter_In. rewrite Hf. by left. }
      rewrite Forall_forall in Hall.
      destruct (Hall z Hz) as (a & b & Ha & Hb & Hab).
      assert (a = ty) by congruence.
      assert (Hxz : sort_le byDate x z = true).
      { eapply sort_le_byDate; [done..|lia]. }
      by rewrite Hxz.
  - simpl. rewrite IH by done. destruct (p y); simpl; [|done].
    by rewrite Hxy.
Qed.

(** Filtering before the sort or after it gives the same list. *)
Lemma sort_filter (p : ScheduledMenu -> bool) (l : list ScheduledMenu) :
  Forall (fun r => is_Some (getTime r)) l ->
  List.filter p (sort byDate l) = sort byDate (List.filter p l).
Proof.
  induction l as [|x l IH]; intros Hval; [done|].
  apply Forall_cons in Hval as [Hx Hval]. simpl.
  fold (sort byDate l). destruct (p x) eqn:Hp.
  - rewrite sort_insert_filter_in; [|done..| |by apply sort_chron].
    + simpl. fold (sort byDate (List.filter p l)). by rewrite IH.
    + by rewrite sort_perm.
  - rewrite sort_insert_filter_out by done. by apply IH.
Qed.

Lemma relevantMenus_valid (menus : list ScheduledMenu) :
  Forall (fun r => is_Some (getTime r)) (relevantMenus menus).
Proof.
  apply Forall_forall. intros r Hr.
  apply elem_of_relevantMenus in Hr as [_ Hr].
  apply onOrAfterToday_spec in Hr as (t0 & t & _ & Ht & _). by exists t.
Qed.

Lemma filter_filter_and {A} (p q : A -> bool) (l : list A) :
  List.filter p (List.filter q l) = List.filter (fun x => q x && p x) l.
Proof.
  induction l as [|x l IH]; [done|]. simpl.
  destruct (q x); simpl; [|done]. destruct (p x); by rewrite IH.
Qed.

Lemma filter_perm {A} (p : A -> bool) (l1 l2 : list A) :
  l1 ≡ₚ l2 -> List.filter p l1 ≡ₚ List.filter p l2.
Proof.
  induction 1 as [|x l1 l2 _ IH|x y l|l1 l2 l3 _ IH1 _ IH2]; simpl.
  - done.
  - destruct (p x); by rewrite IH.
  - destruct (p x), (p y); try done. apply Permutation_swap.
  - by rewrite IH1.
Qed.

End ResolverMoreFacts.

Section ResolverMoreHelpers.
Import JS FoodMenu FoodMenuPage.
Context `{DateHost}.

Lemma sortedRelevantMenus_days (menus : list ScheduledMenu) :
  Forall (fun r => dayName r ∈ days) (sortedRelevantMenus menus).
Proof.
  apply Forall_forall. intros r Hr.
  apply elem_of_sortedRelevantMenus in Hr as [_ Hr].
  apply onOrAfterToday_spec in Hr as (t0 & t & _ & Ht & _).
  by eapply dayName_days.
Qed.

(** A weekday index names a day, and two indices that name the same day
    are the same. *)
Lemma days_lookup (i : Z) :
  0 <= i < 7 -> exists d, days !! Z.to_nat i = Some d /\ d ∈ days.
Proof.
  intros Hi.
  assert (Hc : i = 0 \/ i = 1 \/ i = 2 \/ i = 3 \/ i = 4 \/ i = 5 \/ i = 6)
    by lia.
  clear Hi.
  destruct Hc as [-> | [-> | [-> | [-> | [-> | [-> | ->]]]]]];
    simpl; eexists; (split; [reflexivity|]); unfold days; repeat constructor.
Qed.

Lemma days_lookup_inj (i j : Z) :
  0 <= i < 7 -> 0 <= j < 7 ->
  days !! Z.to_nat i = days !! Z.to_nat j -> i = j.
Proof.
  intros Hi Hj.
  assert (Hc : i = 0 \/ i = 1 \/ i = 2 \/ i = 3 \/ i = 4 \/ i = 5 \/ i = 6)
    by lia.
  assert (Hd : j = 0 \/ j = 1 \/ j = 2 \/ j = 3 \/ j = 4 \/ j = 5 \/ j = 6)
    by lia.
  clear Hi Hj.
  destruct Hc as [-> | [-> | [-> | [-> | [-> | [-> | ->]]]]]];
    destruct Hd as [-> | [-> | [-> | [-> | [-> | [-> | ->]]]]]];
    simpl; intros Heq; first [reflexivity | discriminate Heq].
Qed.

Lemma WeekDay_range (t : Z) : 0 <= WeekDay t < 7.
Proof. unfold WeekDay. apply Z.mod_pos_bound. lia. Qed.

(** The weekday, in local time, of the UTC midnight of the clock's day is
    the weekday of the clock in local time exactly when the offset does
    not carry the clock over a local midnight that the UTC midnight is not
    carried over. *)
Lemma WeekDay_aligned (now o : Z) :
  - msPerDay < o < msPerDay ->
  WeekDay (Day now * msPerDay + o) = WeekDay (now + o)
  <-> (0 <= o /\ now mod msPerDay + o < msPerDay)
      \/ (o < 0 /\ now mod msPerDay + o < 0).
Proof.
  unfold WeekDay, Day, msPerDay. intros Ho.
  Z.to_euclidean_division_equations. lia.
Qed.

(** Whole weeks do not change the weekday. *)
Lemma WeekDay_weeks (t k : Z) :
  WeekDay (t + 7 * k * msPerDay) = WeekDay t.
Proof.
  unfold WeekDay, Day, msPerDay.
  Z.to_euclidean_division_equations. lia.
Qed.

Section SameContent.
Context (f : ScheduledMenu -> ScheduledMenu).
Hypothesis same_content :
  forall r, date (f r) = date r /\ meal_type (f r) = meal_type r
            /\ items (f r) = items r.

Lemma applyMenu_same_content (g : gmap string (gmap string string))
      (r : ScheduledMenu) :
  applyMenu g (f r) = applyMenu g r.
Proof.
  destruct (same_content r) as (Hd & Hm & Hi).
  unfold applyMenu, dayName, itemsString. by rewrite Hd, Hm, Hi.
Qed.

Lemma relevantMenus_same_content (l : list ScheduledMenu) :
  relevantMenus (map f l) = map f (relevantMenus l).
Proof.
  induction l as [|x l IH]; [done|]. simpl.
  unfold onOrAfterToday at 1. destruct (same_content x) as (-> & _ & _).
  fold (onOrAfterToday x). destruct (onOrAfterToday x); simpl;
    fold (relevantMenus (map f l)); fold (relevantMenus l); by rewrite IH.
Qed.

Lemma sort_insert_same_content (x : ScheduledMenu) (l : list ScheduledMenu) :
  sort_insert byDate (f x) (map f l) = map f (sort_insert byDate x l).
Proof.
  induction l as [|y l IH]; [done|]. simpl.
  assert (Hle : sort_le byDate (f x) (f y) = sort_le byDate x y).
  { unfold sort_le, byDate.
    destruct (same_content x) as (-> & _ & _).
    by destruct (same_content y) as (-> & _ & _). }
  rewrite Hle. destruct (sort_le byDate x y); simpl; [done|].
  by rewrite IH.
Qed.

Lemma sort_same_content (l : list ScheduledMenu) :
  sort byDate (map f l) = map f (sort byDate l).
Proof.
  induction l as [|x l IH]; [done|]. simpl.
  fold (sort byDate (map f l)). fold (sort byDate l).
  by rewrite IH, sort_insert_same_content.
Qed.

Lemma forEach_same_content (l : list ScheduledMenu) :
  forall g : gmap string (gmap string string),
    forEach g (map f l) = forEach g l.
Proof.
  induction l as [|x l IH]; intros g; [done|].
  simpl. rewrite applyMenu_same_content.
  destruct (applyMenu g x); [apply IH|done].
Qed.
End SameContent.

End ResolverMoreHelpers.

Section ResolverMore.
Import JS FoodMenu FoodMenuPage.
Context `{DateHost}.

(** X1.  [menusByDay] throws exactly when the callback throws on a
    fetched record dated today or later; whenever it returns, the keys of
    the result are the seven day names, no more and no fewer: the page
    renders seven panels. *)
Theorem menusByDay_keys (menus : list ScheduledMenu) :
  (menusByDay menus = None
   <-> exists r, r ∈ menus /\ onOrAfterToday r = true /\ throws r = true)
  /\ (forall g day, menusByDay menus = Some g ->
                    (is_Some (g !! day) <-> day ∈ days)).
Proof.
  split; [apply menusByDay_None|].
  intros g day Hrun. rewrite menusByDay_forEach in Hrun.
  by apply (forEach_keys _ _ _ Hrun);
    [apply sortedRelevantMenus_days | apply initGrouped_keys].
Qed.

(** X2.  The text of a slot of the result is the fallback text of that
    slot, or the display string of a fetched record dated today or later
    that assigns to that slot: nothing else ever shows up. *)
Theorem slot_text_source (menus : list ScheduledMenu)
        (g : gmap string (gmap string string)) (day meal s : string) :
  menusByDay menus = Some g ->
  slot g day meal = Some s ->
  slot fallbackWeeklyMenu day meal = Some s
  \/ exists r, r ∈ menus /\ onOrAfterToday r = true
               /\ writesSlot day meal r /\ itemsString r = Some s.
Proof.
  rewrite menusByDay_forEach. intros Hrun Hs.
  destruct (forEach_source _ _ _ _ _ _ Hrun Hs) as [H0|(r & Hr & Hw & Hi)].
  - left. by rewrite <- initGrouped_fallback.
  - right. apply elem_of_sortedRelevantMenus in Hr as [Hin Hrel].
    by exists r.
Qed.

(** X3.  When no two records dated today or later share a date, the
    order the records were fetched in does not matter. *)
Theorem fetch_order_irrelevant (menus menus' : list ScheduledMenu) :
  menus ≡ₚ menus' ->
  (forall a b, a ∈ menus -> b ∈ menus ->
               onOrAfterToday a = true -> onOrAfterToday b = true ->
               getTime a = getTime b -> a = b) ->
  menusByDay menus = menusByDay menus'.
Proof.
  intros Hperm Hdistinct. rewrite !menusByDay_forEach. f_equal.
  apply (StronglySorted_unique_strong chron_le).
  - intros a b Ha Hb (x & y & Hx & Hy & Hxy) (y' & x' & Hy' & Hx' & Hyx).
    apply elem_of_sortedRelevantMenus in Ha as [Ha Hra].
    apply elem_of_sortedRelevantMenus in Hb as [Hb Hrb].
    assert (Heq : getTime a = getTime b).
    { rewrite Hx, Hy. f_equal.
      assert (x = x') by congruence. assert (y = y') by congruence. lia. }
    rewrite <- Hperm in Hb. by apply Hdistinct.
  - apply sortedRelevantMenus_chron.
  - apply sortedRelevantMenus_chron.
  - unfold sortedRelevantMenus, relevantMenus. rewrite !sort_perm.
    by apply filter_perm.
Qed.

(** X4.  The outcome, a result or a throw, is decided by the records that
    are dated today or later and that the callback does not skip: all the
    others can be left out of the input. *)
Theorem guarded_records_suffice (menus : list ScheduledMenu) :
  menusByDay menus
  = menusByDay
      (List.filter (fun r => onOrAfterToday r && (writes r || throws r))
                   menus).
Proof.
  rewrite !menusByDay_forEach. unfold sortedRelevantMenus.
  assert (Hrel : relevantMenus
                   (List.filter
                      (fun r => onOrAfterToday r && (writes r || throws r))
                      menus)
                 = List.filter (fun r => writes r || throws r)
                               (relevantMenus menus)).
  { unfold relevantMenus. rewrite !filter_filter_and.
    apply List.filter_ext. intros r.
    destruct (onOrAfterToday r), (writes r), (throws r); reflexivity. }
  rewrite Hrel, <- sort_filter by apply relevantMenus_valid.
  by rewrite forEach_unskipped.
Qed.

(** X5.  The resolver reads the date, the meal type and the items of a
    record and nothing else: changing the other fields of the records
    (the id, the published flag) changes nothing. *)
Theorem unread_fields_ignored (f : ScheduledMenu -> ScheduledMenu)
        (menus : list ScheduledMenu) :
  (forall r, date (f r) = date r /\ meal_type (f r) = meal_type r
             /\ items (f r) = items r) ->
  menusByDay (map f menus) = menusByDay menus.
Proof.
  intros Hsame. rewrite !menusByDay_forEach. unfold sortedRelevantMenus.
  rewrite relevantMenus_same_content, sort_same_content by done.
  by apply forEach_same_content.
Qed.

(** X6.  [queryFn] swallows an error the select resolves with: it gives
    the empty list, whatever data came along; and on the empty list, which
    is also what the component takes when the hook hands it no data, the
    resolved menu is the fallback schedule. *)
Theorem no_data_shows_fallback (data : list ScheduledMenu) (error : string) :
  queryFn (FetchResolved data (Some error)) = Some []
  /\ scheduledMenus None = []
  /\ menusByDay [] = Some fallbackWeeklyMenu.
Proof.
  split; [reflexivity|]. split; [reflexivity|].
  exact (f_equal Some initGrouped_fallback).
Qed.

(** X7.  The tab opened first is always one of the seven days, whatever
    the clock and the time zone. *)
Theorem getCurrentDay_is_a_day :
  exists d, getCurrentDay = Some d /\ d ∈ days.
Proof.
  unfold getCurrentDay, getDay.
  pose proof (WeekDay_range (Date_now + LocalTZA Date_now)) as Hr.
  destruct (Z.leb_spec 0 (WeekDay (Date_now + LocalTZA Date_now)));
    [|lia].
  by apply days_lookup.
Qed.

(** X8.  For a host whose today string parses to the UTC midnight of the
    clock's day and whose local time is [o] milliseconds off UTC (less
    than a day either way), the tab opened first is the bucket of a record
    dated today exactly when the local date is the UTC date shifted the
    way the midnight is: east of UTC until [o] before local midnight,
    west of UTC only in the last [-o] of the local day. *)
Theorem first_tab_shows_today (r : ScheduledMenu) (o : Z) :
  - msPerDay < o < msPerDay ->
  LocalTZA Date_now = o ->
  LocalTZA (Day Date_now * msPerDay) = o ->
  Date_parse getTodayDateString = Some (Day Date_now * msPerDay) ->
  date r = getTodayDateString ->
  getCurrentDay = Some (dayName r)
  <-> (0 <= o /\ Date_now mod msPerDay + o < msPerDay)
      \/ (o < 0 /\ Date_now mod msPerDay + o < 0).
Proof.
  intros Ho Hnow Hmid Htoday Hdate.
  rewrite <- (WeekDay_aligned Date_now o Ho).
  unfold getCurrentDay, dayName, getDay. rewrite Hdate, Htoday, Hnow, Hmid.
  pose proof (WeekDay_range (Date_now + o)) as Hr1.
  pose proof (WeekDay_range (Day Date_now * msPerDay + o)) as Hr2.
  destruct (Z.leb_spec 0 (WeekDay (Date_now + o))); [|lia].
  destruct (Z.leb_spec 0 (WeekDay (Day Date_now * msPerDay + o))); [|lia].
  destruct (days_lookup _ Hr2) as (d & Hd & _). rewrite Hd. simpl.
  rewrite <- Hd. split.
  - intros Heq. symmetry. by apply days_lookup_inj.
  - by intros ->.
Qed.

(** X25.  The seven buckets are weekdays, not a window of seven days: a
    record dated a whole number of weeks after another one (same offset
    of local time at both dates) falls on the same day name, and when
    both assign to the same meal its text replaces the earlier one's. *)
Theorem later_week_overrides (A B : ScheduledMenu) (ta k : Z) :
  onOrAfterToday A = true ->
  getTime A = Some ta ->
  getTime B = Some (ta + 7 * k * msPerDay) ->
  0 < k ->
  LocalTZA (ta + 7 * k * msPerDay) = LocalTZA ta ->
  meal_type B = meal_type A -> writes A = true -> writes B = true ->
  dayName B = dayName A
  /\ exists g s, menusByDay [A; B] = Some g
                 /\ itemsString B = Some s
                 /\ slot g (dayName A) (meal_type A) = Some s.
Proof.
  intros Hrel Hta Htb Hk Htz Hmeal HwA HwB.
  assert (Hday : dayName B = dayName A).
  { unfold dayName, getDay. unfold getTime in Hta, Htb.
    rewrite Hta, Htb, Htz.
    replace (ta + 7 * k * msPerDay + LocalTZA ta)
      with (ta + LocalTZA ta + 7 * k * msPerDay) by lia.
    by rewrite WeekDay_weeks. }
  split; [done|].
  assert (HrelB : onOrAfterToday B = true).
  { eapply onOrAfterToday_later; [exact Hrel|done..|].
    unfold msPerDay. lia. }
  assert (Hsorted : sortedRelevantMenus [A; B] = [A] ++ B :: []).
  { unfold sortedRelevantMenus, relevantMenus. simpl.
    rewrite Hrel, HrelB. simpl.
    assert (Hle : sort_le byDate A B = true).
    { eapply sort_le_byDate; [done..|]. unfold msPerDay. lia. }
    by rewrite Hle. }
  destruct (proj1 (writes_true B) HwB) as (_ & s & Hs & _).
  destruct (forEach_completes (sortedRelevantMenus [A; B]) initGrouped)
    as [g Hg].
  { rewrite Hsorted. simpl.
    repeat constructor; by apply writes_not_throws. }
  exists g, s. rewrite menusByDay_forEach. split; [done|]. split; [done|].
  rewrite Hsorted in Hg. rewrite <- Hs.
  eapply forEach_last; [exact Hg|by repeat split|constructor].
Qed.

End ResolverMore.

(** * Further properties of the auth provider *)

Section ProviderFacts.
Import JS AuthContext AuthProvider.

Lemma append_cons (a : ascii) (t q : string) :
  String a t +:+ q = String a (t +:+ q).
Proof. reflexivity. Qed.

Lemma starts_with_spec (t : string) :
  forall s, starts_with t s = true <-> exists q, s = t +:+ q.
Proof.
  induction t as [|a t IH]; intros s; simpl.
  - split; [by exists s|done].
  - destruct s as [|b s].
    + split; [done|]. intros [q Hq]. by rewrite append_cons in Hq.
    + rewrite andb_true_iff, IH. split.
      * intros [Hab [q ->]]. apply Ascii.eqb_eq in Hab as ->. by exists q.
      * intros [q Hq]. rewrite append_cons in Hq. injection Hq as -> ->.
        split; [apply Ascii.eqb_refl|by exists q].
Qed.

Lemma includes_spec (t : string) :
  forall s, includes s t = true <-> exists p q, s = p +:+ t +:+ q.
Proof.
  induction s as [|c s IH]; simpl; rewrite orb_true_iff, starts_with_spec.
  - split.
    + intros [[q Hq]|Hf]; [by exists "", q|done].
    + intros (p & q & Hpq). left. destruct p as [|c p].
      * by exists q.
      * by rewrite append_cons in Hpq.
  - rewrite IH. split.
    + intros [[q Hq]|(p & q & ->)]; [by exists "", q|].
      by exists (String c p), q.
    + intros (p & q & Hpq). destruct p as [|c' p].
      * left. by exists q.
      * right. rewrite append_cons in Hpq. injection Hpq as -> ->.
        by exists p, q.
Qed.

Lemma or_else_truthy (v : option string) (d : string) :
  d <> "" -> or_else v d <> "".
Proof.
  intros Hd. unfold or_else. destruct v as [s|]; [|done].
  destruct (truthy s) eqn:Hs; [by apply truthy_true|done].
Qed.

Lemma strict_eq_or_else_dark (v : option string) :
  strict_eq (Some (or_else v "light")) "dark" = strict_eq v "dark".
Proof.
  unfold or_else, strict_eq. destruct v as [s|]; [|done].
  destruct (truthy s) eqn:Hs; [done|].
  apply truthy_false in Hs as ->. done.
Qed.

Lemma merge_idempotent (u : User) (updates : Partial.User) :
  merge (merge u updates) updates = merge u updates.
Proof.
  unfold merge. simpl.
  destruct updates as [i n e ro re ph av th ad]; simpl.
  by destruct i, n, e, ro, re, ph, av, th, ad.
Qed.

Lemma assign_if_truthy_lookup (k j x : string) (v : option string)
      (m : gmap string string) :
  assign_if_truthy k v m !! j = Some x ->
  (j = k /\ v = Some x /\ x <> "") \/ m !! j = Some x.
Proof.
  unfold assign_if_truthy. destruct v as [s|]; [|by right].
  destruct (truthy s) eqn:Hs; [|by right].
  intros [[<- <-]|[_ Hm]]%lookup_insert_Some; [|by right].
  left. split_and!; [done..|]. by apply truthy_true.
Qed.

Lemma mjoin_Some_inv {A} (o : option (option A)) (x : A) :
  mjoin o = Some x -> o = Some (Some x).
Proof. destruct o as [[y|]|]; simpl; congruence. Qed.

(** Where an entry of the object sent to the profiles table comes from. *)
Lemma profileUpdatesOf_lookup (updates : Partial.User) (k v : string) :
  profileUpdatesOf updates !! k = Some v ->
  v <> ""
  /\ ((k = "name" /\ Partial.name updates = Some v)
      \/ (k = "phone_number" /\ mjoin (Partial.phoneNumber updates) = Some v)
      \/ (k = "avatar" /\ mjoin (Partial.avatar updates) = Some v)
      \/ (k = "theme" /\ mjoin (Partial.theme updates) = Some v
          /\ (v = "light" \/ v = "dark"))).
Proof.
  unfold profileUpdatesOf. intros Hk.
  assert (Hrest : assign_if_truthy "avatar" (mjoin (Partial.avatar updates))
                    (assign_if_truthy "phone_number"
                       (mjoin (Partial.phoneNumber updates))
                       (assign_if_truthy "name" (Partial.name updates) ∅))
                  !! k = Some v ->
                  v <> ""
                  /\ ((k = "name" /\ Partial.name updates = Some v)
                      \/ (k = "phone_number"
                          /\ mjoin (Partial.phoneNumber updates) = Some v)
                      \/ (k = "avatar"
                          /\ mjoin (Partial.avatar updates) = Some v)
                      \/ (k = "theme"
                          /\ mjoin (Partial.theme updates) = Some v
                          /\ (v = "light" \/ v = "dark")))).
  { intros Ha.
    apply assign_if_truthy_lookup in Ha as [(-> & Ha & Hv)|Hp]; [by auto 6|].
    apply assign_if_truthy_lookup in Hp as [(-> & Hp & Hv)|Hn]; [by auto 6|].
    apply assign_if_truthy_lookup in Hn as [(-> & Hn & Hv)|He]; [by auto 6|].
    by rewrite lookup_empty in He. }
  destruct (mjoin (Partial.theme updates)) as [t|]; [|by apply Hrest].
  destruct (truthy t) eqn:Ht; simpl in Hk; [|by apply Hrest].
  destruct (String.eqb_spec t "light") as [->|Hl]; simpl in Hk.
  - apply lookup_insert_Some in Hk as [[<- <-]|[_ Hk]]; [|by apply Hrest].
    split; [done|]. by auto 10.
  - destruct (String.eqb_spec t "dark") as [->|Hd]; simpl in Hk;
      [|by apply Hrest].
    apply lookup_insert_Some in Hk as [[<- <-]|[_ Hk]]; [|by apply Hrest].
    split; [done|]. by auto 10.
Qed.

Lemma with_theme_back (u : User) (t mid : string) :
  theme u = Some t -> with_theme (with_theme u mid) t = u.
Proof. destruct u; simpl. by intros ->. Qed.

End ProviderFacts.

Section ProviderSpec.
Import JS AuthContext AuthProvider.

(** X9.  A sign-out that resolves clears the profile and the dark class
    and shows no toast, also when the result carries an error: the result
    is not looked at. *)
Theorem logout_resolved_clears (error : option Error) (p : Provider) :
  exists p',
    logout (Resolved error) p = (p', Normal ())
    /\ user (world p') = None
    /\ dark (world p') = false
    /\ toasts (world p') = toasts (world p)
    /\ calls p' = calls p ++ [SignOut].
Proof.
  destruct p as [w cs]. eexists. split; [reflexivity|]. by simpl.
Qed.

(** X10.  A sign-out that rejects leaves the profile, the loading flag
    and the dark class as they were, shows the destructive "Logout
    failed" toast and does not throw. *)
Theorem logout_rejected_keeps (reason : Error) (p : Provider) :
  exists p',
    logout (Rejected reason) p = (p', Normal ())
    /\ user (world p') = user (world p)
    /\ isLoading (world p') = isLoading (world p)
    /\ dark (world p') = dark (world p)
    /\ toasts (world p')
       = toasts (world p) ++ [{| title := "Logout failed";
                                 description := message reason;
                                 variant := Some "destructive" |}].
Proof.
  destruct p as [w cs]. eexists. split; [reflexivity|]. by simpl.
Qed.

(** X11.  When the sign-up call fails, by resolving with an error or by
    rejecting, [register] leaves the profile as it was, ends with the
    loading flag false, shows the destructive "Registration failed" toast
    with the error's message, and throws that error to its caller. *)
Theorem register_failure (name email password roomNumber regNumber : string)
        (phoneNumber : option string) (resp : Response) (err : Error)
        (p : Provider) :
  failure resp = Some err ->
  exists p',
    register name email password roomNumber regNumber phoneNumber resp p
    = (p', Throw err)
    /\ user (world p') = user (world p)
    /\ isLoading (world p') = false
    /\ toasts (world p')
       = toasts (world p) ++ [{| title := "Registration failed";
                                 description := message err;
                                 variant := Some "destructive" |}].
Proof.
  intros Hf. destruct p as [w cs].
  destruct resp as [[e|]|e]; simpl in Hf; simplify_eq;
    (eexists; split; [reflexivity|]); by simpl.
Qed.

(** X12.  Whatever the outcome, [register] makes one sign-up call, and
    the admin flag in its metadata is set exactly for the listed address
    and for every address that has "admin" somewhere in it. *)
Theorem register_admin_flag (name email password roomNumber regNumber : string)
        (phoneNumber : option string) (resp : Response) (p : Provider) :
  calls (fst (register name email password roomNumber regNumber
                       phoneNumber resp p))
  = calls p ++ [SignUp email password
                  {| SignUp.name := name;
                     SignUp.roomNumber := roomNumber;
                     SignUp.regNumber := regNumber;
                     SignUp.phoneNumber := phoneNumber;
                     SignUp.isAdmin := isAdminEmail email |}]
  /\ (isAdminEmail email = true
      <-> email = "hellofrom1000@gmail.com"
          \/ exists pre post, email = pre +:+ "admin" +:+ post).
Proof.
  split.
  - destruct p as [w cs]. by destruct resp as [[e|]|e].
  - unfold isAdminEmail, ADMIN_EMAILS. simpl.
    rewrite !orb_true_iff, includes_spec, String.eqb_eq.
    split; [intros [[Hl|Hf]|Hi]|intros [Hl|Hi]]; auto; done.
Qed.

(** X13.  [formatUser] gives null and does not throw when there is no
    user, when the select resolves with an error or without a row, and
    when it rejects; the profile, the dark class and the toasts are left
    alone. *)
Theorem formatUser_null (supabaseUser : option Supabase.User)
        (resp : ProfileResponse) (p : Provider) :
  supabaseUser = None \/ profile_of resp = None ->
  exists p',
    formatUser supabaseUser resp p = (p', Normal None)
    /\ user (world p') = user (world p)
    /\ dark (world p') = dark (world p)
    /\ toasts (world p') = toasts (world p).
Proof.
  intros Hnone. destruct p as [w cs].
  destruct supabaseUser as [u|]; [|by eexists].
  destruct Hnone as [Hu|Hp]; [done|].
  destruct resp as [[d|] [e|]|e]; simpl in Hp; simplify_eq;
    (eexists; split; [reflexivity|]); by simpl.
Qed.

(** X14.  With a user and a row, [formatUser] gives a profile that has
    the user's id, an email that is a string (empty when the user has
    none), a theme that is never missing or empty ("light" by default),
    and it sets the dark class exactly when that theme is "dark". *)
Theorem formatUser_profile (u : Supabase.User) (d : Supabase.Profile)
        (resp : ProfileResponse) (p : Provider) :
  profile_of resp = Some d ->
  exists p' usr t,
    formatUser (Some u) resp p = (p', Normal (Some usr))
    /\ id usr = Supabase.id u
    /\ email usr = default "" (Supabase.email u)
    /\ theme usr = Some t /\ t <> ""
    /\ (Supabase.theme d = None -> t = "light")
    /\ dark (world p') = String.eqb t "dark"
    /\ user (world p') = user (world p)
    /\ calls p' = calls p ++ [ProfilesSelect (Supabase.id u)].
Proof.
  intros Hp. destruct p as [w cs].
  destruct resp as [[d'|] [e|]|e]; simpl in Hp; simplify_eq.
  eexists _, _, _. split; [reflexivity|]. simpl. split_and!; try done.
  - unfold or_else. destruct (Supabase.email u) as [s|]; [|done].
    simpl. destruct (truthy s) eqn:Hs; [done|].
    by apply truthy_false in Hs.
  - by apply or_else_truthy.
  - by intros ->.
  - symmetry. apply (strict_eq_or_else_dark (Supabase.theme d)).
Qed.

(** X15.  The auth-state callback never throws and always ends with the
    loading flag false; with no session user, or when hydration gives no
    profile, it sets the profile to null and leaves the dark class as
    it was. *)
Theorem handleAuthChange_settles (session : option Supabase.Session)
        (resp : ProfileResponse) (p : Provider) :
  exists p',
    handleAuthChange session resp p = (p', Normal ())
    /\ isLoading (world p') = false
    /\ (session_user session = None \/ profile_of resp = None ->
        user (world p') = None /\ dark (world p') = dark (world p)).
Proof.
  destruct p as [w cs]. unfold handleAuthChange.
  destruct (session_user session) as [u|].
  - destruct resp as [[d|] [e|]|e];
      (eexists; split; [reflexivity|]); simpl; (split; [done|]);
      intros [Hs|Hp]; simplify_eq; done.
  - eexists. split; [reflexivity|]. by simpl.
Qed.

(** X16.  After the auth-state callback has hydrated a session user from
    a row, the profile is loaded with that user's id and the dark class
    mirrors its theme, whatever the state was before. *)
Theorem handleAuthChange_hydrates (session : option Supabase.Session)
        (u : Supabase.User) (d : Supabase.Profile)
        (resp : ProfileResponse) (p : Provider) :
  session_user session = Some u -> profile_of resp = Some d ->
  exists p' usr,
    handleAuthChange session resp p = (p', Normal ())
    /\ user (world p') = Some usr
    /\ id usr = Supabase.id u
    /\ theme_in_sync (world p').
Proof.
  intros Hs Hp. destruct p as [w cs]. unfold handleAuthChange. rewrite Hs.
  destruct resp as [[d'|] [e|]|e]; simpl in Hp; simplify_eq.
  eexists _, _. split; [reflexivity|]. simpl. split_and!; try done.
  unfold theme_in_sync. simpl.
  symmetry. apply (strict_eq_or_else_dark (Supabase.theme d)).
Qed.

(** X17.  The initial session check never throws, not even when
    [getSession] rejects, and always ends with the loading flag false;
    when [getSession] rejects or there is no session user it leaves the
    profile and the dark class as they were and shows no toast. *)
Theorem initializeAuth_settles (sresp : SessionResponse)
        (resp : ProfileResponse) (p : Provider) :
  exists p',
    initializeAuth sresp resp p = (p', Normal ())
    /\ isLoading (world p') = false
    /\ toasts (world p') = toasts (world p)
    /\ ((forall session, sresp = SessionResolved session ->
                         session_user session = None) ->
        user (world p') = user (world p)
        /\ dark (world p') = dark (world p)).
Proof.
  destruct p as [w cs]. unfold initializeAuth.
  destruct sresp as [session|reason].
  - unfold tryFinally, tryCatch, mbind, P_bind, awaitSession.
    destruct (session_user session) as [u|] eqn:Hu.
    + destruct resp as [[d|] [e|]|e];
        (eexists; split; [reflexivity|]); simpl; (split; [done|]);
        (split; [done|]); intros Hno; specialize (Hno session eq_refl);
        congruence.
    + eexists. split; [reflexivity|]. by simpl.
  - eexists. split; [reflexivity|]. by simpl.
Qed.

(** X18.  [toggleTheme] keeps the dark class in step with the theme of
    the profile, whether the remote write succeeds or fails. *)
Theorem toggleTheme_keeps_sync (resp : Response) (w : World) :
  theme_in_sync w -> theme_in_sync (fst (toggleTheme resp w)).
Proof.
  unfold theme_in_sync. intros Hs. destruct w as [[u|] l d t c r]; [|done].
  simpl in Hs. destruct resp as [[e|]|e]; simpl; try done.
Qed.

(** X19.  [updateProfile] keeps the dark class in step with the theme of
    the profile when the partial has no theme key or a theme that is a
    non-empty string, whether the remote write succeeds or fails. *)
Theorem updateProfile_keeps_sync (updates : Partial.User) (resp : Response)
        (w : World) :
  (Partial.theme updates = None
   \/ exists t, Partial.theme updates = Some (Some t) /\ t <> "") ->
  theme_in_sync w -> theme_in_sync (fst (updateProfile updates resp w)).
Proof.
  unfold theme_in_sync. intros Hth Hs.
  destruct w as [[u|] l d t c r]; [|done]. simpl in Hs.
  unfold updateProfile, get_user, mbind, M_bind, try_catch, await, throw_if.
  simpl.
  destruct resp as [[e|]|e]; simpl; try done.
  destruct Hth as [Hth|(th & Hth & Hne)]; rewrite Hth; simpl.
  - by rewrite Hth.
  - apply truthy_true in Hne. rewrite Hne. simpl. by rewrite Hth.
Qed.

(** X20.  [logout] leaves the dark class in step with the profile: a
    resolved sign-out clears both, a rejected one touches neither. *)
Theorem logout_keeps_sync (resp : Response) (p : Provider) :
  theme_in_sync (world p) -> theme_in_sync (world (fst (logout resp p))).
Proof.
  destruct p as [w cs]. by destruct resp as [e|e].
Qed.

(** X21.  Two successful toggles in a row give back the profile as it
    was, for a profile whose theme is "light" or "dark". *)
Theorem toggleTheme_twice (u : User) (w : World) :
  user w = Some u ->
  theme u = Some "light" \/ theme u = Some "dark" ->
  user (fst (toggleTheme (Resolved None)
                         (fst (toggleTheme (Resolved None) w))))
  = Some u.
Proof.
  intros Hu Ht. destruct w as [wu l d t c r]. simpl in Hu. subst wu.
  unfold toggleTheme, get_user, mbind, M_bind. simpl.
  destruct Ht as [Ht|Ht]; unfold newThemeOf; rewrite Ht; simpl;
    f_equal; by apply with_theme_back.
Qed.

(** X22.  Every value in the object sent to the profiles table is a
    non-empty string taken from the partial, and the theme sent, if any,
    is "light" or "dark". *)
Theorem profileUpdatesOf_values (updates : Partial.User) (k v : string) :
  profileUpdatesOf updates !! k = Some v ->
  v <> ""
  /\ (k = "name" -> Partial.name updates = Some v)
  /\ (k = "phone_number" -> Partial.phoneNumber updates = Some (Some v))
  /\ (k = "avatar" -> Partial.avatar updates = Some (Some v))
  /\ (k = "theme" -> Partial.theme updates = Some (Some v)
                     /\ (v = "light" \/ v = "dark")).
Proof.
  intros Hk. apply profileUpdatesOf_lookup in Hk as [Hv Hk]. split; [done|].
  destruct Hk as [[-> Hn]|[[-> Hp]|[[-> Ha]|(-> & Ht & Hld)]]];
    split_and!; intros; simplify_eq; try done.
  - by apply mjoin_Some_inv.
  - by apply mjoin_Some_inv.
  - split; [by apply mjoin_Some_inv|done].
Qed.

(** X23.  Sending the same partial a second time changes nothing more in
    the local profile: after two successful updates the profile is what
    it was after the first. *)
Theorem updateProfile_twice (updates : Partial.User) (u : User) (w : World) :
  user w = Some u ->
  user (fst (updateProfile updates (Resolved None)
                           (fst (updateProfile updates (Resolved None) w))))
  = user (fst (updateProfile updates (Resolved None) w))
  /\ user (fst (updateProfile updates (Resolved None) w))
     = Some (merge u updates).
Proof.
  intros Hu. destruct w as [wu l d t c r]. simpl in Hu. subst wu.
  unfold updateProfile, get_user, mbind, M_bind, try_catch, await, throw_if,
    setUser, mret, M_ret.
  simpl.
  destruct (mjoin (Partial.theme updates)) as [th|];
    [destruct (truthy th)|]; simpl; by rewrite merge_idempotent.
Qed.

(** X24.  [login] and [register] never write the profile or the dark
    class, and always end with the loading flag false, on success as on
    failure. *)
Theorem login_register_touch_only_loading
        (name email password roomNumber regNumber : string)
        (phoneNumber : option string) (resp : Response) (p : Provider) :
  (user (fst (login email password resp (world p))) = user (world p)
   /\ dark (fst (login email password resp (world p))) = dark (world p)
   /\ isLoading (fst (login email password resp (world p))) = false)
  /\ (user (world (fst (register name email password roomNumber regNumber
                                 phoneNumber resp p)))
      = user (world p)
      /\ dark (world (fst (register name email password roomNumber regNumber
                                    phoneNumber resp p)))
         = dark (world p)
      /\ isLoading (world (fst (register name email password roomNumber
                                         regNumber phoneNumber resp p)))
         = false).
Proof.
  destruct p as [w cs]. by destruct resp as [[e|]|e].
Qed.

End ProviderSpec.

(** ** The further properties on the sample data *)

Section MoreWitnesses.
Import JS FoodMenu FoodMenuPage AuthContext AuthProvider Sample.
#[local] Existing Instance Sample.host.

Lemma slot_text_source_witness :
  slot fallbackWeeklyMenu "monday" "lunch" = Some "Rice, Dal"
  \/ exists r, r ∈ [yesterday_dinner; today_lunch]
               /\ onOrAfterToday r = true
               /\ writesSlot "monday" "lunch" r
               /\ itemsString r = Some "Rice, Dal".
Proof.
  pose (g := <["monday" := <["lunch" := "Rice, Dal"]>
                             (spread initGrouped "monday")]> initGrouped).
  apply (slot_text_source [yesterday_dinner; today_lunch] g).
  - vm_cast_no_check (eq_refl (Some g)).
  - vm_compute. reflexivity.
Defined.

Lemma fetch_order_irrelevant_witness :
  menusByDay [today_lunch; tomorrow_breakfast]
  = menusByDay [tomorrow_breakfast; today_lunch].
Proof.
  apply fetch_order_irrelevant; [apply Permutation_swap|].
  intros a b Ha Hb _ _ Heq.
  apply elem_of_cons in Ha as [->|Ha];
    [|apply list_elem_of_singleton in Ha as ->];
    (apply elem_of_cons in Hb as [->|Hb];
       [|apply list_elem_of_singleton in Hb as ->]);
    first [reflexivity | by vm_compute in Heq].
Defined.

Lemma unread_fields_ignored_witness :
  menusByDay (map unpublish [today_lunch; tomorrow_breakfast])
  = menusByDay [today_lunch; tomorrow_breakfast].
Proof.
  apply unread_fields_ignored. intros r. by repeat split.
Defined.

Lemma later_week_overrides_witness :
  dayName next_monday_lunch = dayName today_lunch
  /\ exists g s, menusByDay [today_lunch; next_monday_lunch] = Some g
                 /\ itemsString next_monday_lunch = Some s
                 /\ slot g (dayName today_lunch) (meal_type today_lunch)
                    = Some s.
Proof.
  apply (later_week_overrides today_lunch next_monday_lunch today_ms 1).
  - vm_compute. reflexivity.
  - vm_compute. reflexivity.
  - vm_compute. reflexivity.
  - lia.
  - reflexivity.
  - reflexivity.
  - vm_compute. reflexivity.
  - vm_compute. reflexivity.
Defined.

Lemma first_tab_shows_today_witness :
  getCurrentDay = Some (dayName today_lunch).
Proof.
  apply (first_tab_shows_today today_lunch 19800000).
  - unfold msPerDay. lia.
  - reflexivity.
  - reflexivity.
  - vm_compute. reflexivity.
  - vm_compute. reflexivity.
  - left. split; [lia|]. vm_compute. reflexivity.
Defined.

Lemma register_failure_witness :
  exists p',
    register "Bob" "bob@example.org" "pw" "C-3" "R200" None
             (Rejected network_down) fresh
    = (p', Throw network_down)
    /\ user (world p') = user (world fresh)
    /\ isLoading (world p') = false
    /\ toasts (world p')
       = toasts (world fresh) ++ [{| title := "Registration failed";
                                     description := message network_down;
                                     variant := Some "destructive" |}].
Proof.
  exact (register_failure "Bob" "bob@example.org" "pw" "C-3" "R200" None
           (Rejected network_down) network_down fresh eq_refl).
Defined.

Lemma formatUser_null_witness :
  exists p',
    formatUser (Some alice_auth)
               (ProfileResolved None (Some bad_credentials)) with_alice
    = (p', Normal None)
    /\ user (world p') = user (world with_alice)
    /\ dark (world p') = dark (world with_alice)
    /\ toasts (world p') = toasts (world with_alice).
Proof.
  apply formatUser_null. by right.
Defined.

Lemma formatUser_profile_witness :
  exists p' usr t,
    formatUser (Some alice_auth) (ProfileResolved (Some alice_row) None) fresh
    = (p', Normal (Some usr))
    /\ id usr = "u1"
    /\ email usr = "alice@example.org"
    /\ theme usr = Some t /\ t <> ""
    /\ (Supabase.theme alice_row = None -> t = "light")
    /\ dark (world p') = String.eqb t "dark"
    /\ user (world p') = user (world fresh)
    /\ calls p' = calls fresh ++ [ProfilesSelect "u1"].
Proof.
  exact (formatUser_profile alice_auth alice_row
           (ProfileResolved (Some alice_row) None) fresh eq_refl).
Defined.

Lemma handleAuthChange_hydrates_witness :
  exists p' usr,
    handleAuthChange (Some alice_session)
                     (ProfileResolved (Some alice_row) None) fresh
    = (p', Normal ())
    /\ user (world p') = Some usr
    /\ id usr = "u1"
    /\ theme_in_sync (world p').
Proof.
  exact (handleAuthChange_hydrates (Some alice_session) alice_auth alice_row
           (ProfileResolved (Some alice_row) None) fresh eq_refl eq_refl).
Defined.

Lemma toggleTheme_keeps_sync_witness :
  theme_in_sync (fst (toggleTheme (Resolved None) signed_in)).
Proof. apply toggleTheme_keeps_sync. reflexivity. Defined.

Lemma updateProfile_keeps_sync_witness :
  theme_in_sync (fst (updateProfile go_dark (Resolved None) signed_in)).
Proof.
  apply updateProfile_keeps_sync; [|reflexivity].
  right. exists "dark". by split.
Defined.

Lemma logout_keeps_sync_witness :
  theme_in_sync (world (fst (logout (Rejected network_down) with_alice))).
Proof. apply logout_keeps_sync. reflexivity. Defined.

Lemma toggleTheme_twice_witness :
  user (fst (toggleTheme (Resolved None)
                         (fst (toggleTheme (Resolved None) signed_in))))
  = Some alice.
Proof. apply toggleTheme_twice; [reflexivity|by left]. Defined.

Lemma profileUpdatesOf_values_witness :
  "dark" <> ""
  /\ ("theme" = "name" -> Partial.name go_dark = Some "dark")
  /\ ("theme" = "phone_number"
      -> Partial.phoneNumber go_dark = Some (Some "dark"))
  /\ ("theme" = "avatar" -> Partial.avatar go_dark = Some (Some "dark"))
  /\ ("theme" = "theme" -> Partial.theme go_dark = Some (Some "dark")
                           /\ ("dark" = "light" \/ "dark" = "dark")).
Proof.
  apply (profileUpdatesOf_values go_dark "theme" "dark").
  vm_compute. reflexivity.
Defined.

Lemma updateProfile_twice_witness :
  user (fst (updateProfile new_email (Resolved None)
               (fst (updateProfile new_email (Resolved None) signed_in))))
  = user (fst (updateProfile new_email (Resolved None) signed_in))
  /\ user (fst (updateProfile new_email (Resolved None) signed_in))
     = Some (merge alice new_email).
Proof. apply updateProfile_twice. reflexivity. Defined.

End MoreWitnesses.
